(** * First-run and configuration migration of the add-on (src/addon/firstrun.py)

    A shallow embedding of the module [firstrun.py]: the [Version] class,
    the four guarded rewrites of the configuration store that run once at
    start-up, the tutorial guard and the final recording of the add-on
    version.  Python values are the JSON values a configuration can hold;
    statements run in a state-and-exception monad in which a raised
    exception keeps the mutations made before it. *)

From Stdlib Require Import ZArith String Ascii List Bool.
From Stdlib Require Import Floats.SpecFloat.
From stdpp Require Import base option list strings gmap pretty.

Set Warnings "-register-all".

Local Open Scope string_scope.
Local Open Scope Z_scope.

(** ** Python values *)

(** The values a JSON configuration holds.  A [dict] keeps its keys in
    insertion order, so it is an association list; a float is an IEEE-754
    value in the Standard Library's specification format. *)
Inductive value : Type :=
  | VNone
  | VBool (b : bool)
  | VInt (z : Z)
  | VFloat (f : spec_float)
  | VStr (s : string)
  | VList (l : list value)
  | VDict (d : list (string * value)).

(** The exceptions the module can raise. *)
Inductive exn : Type :=
  | KeyError | ValueError | TypeError | IndexError | AttributeError.

Inductive outcome (A : Type) : Type :=
  | Ok (a : A)
  | Raise (e : exn).
Arguments Ok {A} a.
Arguments Raise {A} e.

(** [isinstance(v, bool)], [isinstance(v, str)], [isinstance(v, list)]. *)
Definition is_bool (v : value) : bool :=
  match v with VBool _ => true | _ => false end.
Definition is_str (v : value) : bool :=
  match v with VStr _ => true | _ => false end.
Definition is_list (v : value) : bool :=
  match v with VList _ => true | _ => false end.

(** [v is not None]. *)
Definition is_not_None (v : value) : bool :=
  match v with VNone => false | _ => true end.

(** Exact comparison of a float with an integer, as Python does it: [None]
    for a NaN, which compares false with everything. *)
Definition float_compare_int (f : spec_float) (z : Z) : option comparison :=
  match f with
  | S754_nan => None
  | S754_infinity true => Some Lt
  | S754_infinity false => Some Gt
  | S754_zero _ => Some (0 ?= z)
  | S754_finite s m e =>
      let n := if s then Z.neg m else Z.pos m in
      if 0 <=? e then Some (n * 2 ^ e ?= z) else Some (n ?= z * 2 ^ (- e))
  end.

(** Truth value of an object: [bool(v)]. *)
Definition truthy (v : value) : bool :=
  match v with
  | VNone => false
  | VBool b => b
  | VInt z => negb (z =? 0)
  | VFloat f =>
      match float_compare_int f 0 with Some Eq => false | _ => true end
  | VStr s => negb (String.eqb s "")
  | VList l => match l with [] => false | _ => true end
  | VDict d => match d with [] => false | _ => true end
  end.

(** [v == z] for an integer [z]: a [bool] counts as 0 or 1, a float is
    compared exactly, every other type is unequal to an integer. *)
Definition eq_int (v : value) (z : Z) : bool :=
  match v with
  | VInt a => a =? z
  | VBool b => Z.b2z b =? z
  | VFloat f => match float_compare_int f z with Some Eq => true | _ => false end
  | _ => false
  end.

(** [v > z] and [v < z] for an integer [z]: ordering a [None], [str],
    [list] or [dict] against an [int] raises [TypeError]. *)
Definition gt_int (v : value) (z : Z) : outcome bool :=
  match v with
  | VInt a => Ok (z <? a)
  | VBool b => Ok (z <? Z.b2z b)
  | VFloat f => Ok match float_compare_int f z with Some Gt => true | _ => false end
  | _ => Raise TypeError
  end.

Definition lt_int (v : value) (z : Z) : outcome bool :=
  match v with
  | VInt a => Ok (a <? z)
  | VBool b => Ok (Z.b2z b <? z)
  | VFloat f => Ok match float_compare_int f z with Some Lt => true | _ => false end
  | _ => Raise TypeError
  end.

(** *** [str.split(".")] *)

Fixpoint split_dot (s : string) : list string :=
  match s with
  | EmptyString => [""]
  | String c r =>
      if Ascii.eqb c "." then "" :: split_dot r
      else match split_dot r with
           | h :: t => String c h :: t
           | [] => [String c ""]
           end
  end.

(** *** [int(s)] for a string

    Base-ten conversion as the builtin [int] does it.  A [str] is held as
    its UTF-8 bytes and read code point by code point (a byte string that
    is not UTF-8 stands for no [str] and converts to nothing).  [int]
    drops the blanks around the number, allows one sign, reads every
    Unicode decimal digit, lets single underscores separate digits and
    refuses more than [int_max_str_digits] digits. *)

(** The code points of a UTF-8 byte string.  [need] continuation bytes
    are still to come for the code point begun, [acc] holds its bits so
    far and [lo] is the least code point its length may encode. *)
Fixpoint utf8_decode_from (need : nat) (acc lo : Z) (s : string)
  : option (list Z) :=
  match s with
  | EmptyString => match need with O => Some [] | S _ => None end
  | String c r =>
      let b := Z.of_N (N_of_ascii c) in
      match need with
      | O =>
          if b <? 128 then cons b <$> utf8_decode_from 0 0 0 r
          else if (194 <=? b) && (b <? 224) then utf8_decode_from 1 (b - 192) 128 r
          else if (224 <=? b) && (b <? 240) then utf8_decode_from 2 (b - 224) 2048 r
          else if (240 <=? b) && (b <? 245) then utf8_decode_from 3 (b - 240) 65536 r
          else None
      | S n =>
          if (128 <=? b) && (b <? 192) then
            let acc' := acc * 64 + (b - 128) in
            match n with
            | O =>
                if (lo <=? acc') && (acc' <=? 1114111)
                   && negb ((55296 <=? acc') && (acc' <=? 57343))
                then cons acc' <$> utf8_decode_from 0 0 0 r
                else None
            | S _ => utf8_decode_from n acc' lo r
            end
          else None
      end
  end.

Definition utf8_decode (s : string) : option (list Z) :=
  utf8_decode_from 0 0 0 s.

(** The code points of the digit zero of every decimal digit set of
    Unicode 14.0 (the character data of CPython 3.11); the nine code
    points after each are its digits one to nine. *)
Definition digit_zeros : list Z :=
  [48; 1632; 1776; 1984; 2406; 2534; 2662; 2790; 2918; 3046; 3174; 3302;
   3430; 3558; 3664; 3792; 3872; 4160; 4240; 6112; 6160; 6470; 6608; 6784;
   6800; 6992; 7088; 7232; 7248; 42528; 43216; 43264; 43472; 43504; 43600;
   44016; 65296; 66720; 68912; 69734; 69872; 69942; 70096; 70384; 70736;
   70864; 71248; 71360; 71472; 71904; 72016; 72784; 73040; 73120; 92768;
   92864; 93008; 120782; 120792; 120802; 120812; 120822; 123200; 123632;
   125264; 130032].

Definition digit_of (cp : Z) : option Z :=
  (λ z, cp - z) <$> find (λ z, (z <=? cp) && (cp <? z + 10)) digit_zeros.

(** The blanks [int] drops around a number: the six ASCII ones (tab, line
    feed, vertical tab, form feed, carriage return, space) and the
    Unicode blanks above 127.  The separators 28 to 31 are not among
    them. *)
Definition is_py_space (cp : Z) : bool :=
  ((9 <=? cp) && (cp <=? 13)) || (cp =? 32) ||
  (cp =? 133) || (cp =? 160) || (cp =? 5760) ||
  ((8192 <=? cp) && (cp <=? 8202)) ||
  (cp =? 8232) || (cp =? 8233) || (cp =? 8239) || (cp =? 8287) ||
  (cp =? 12288).

Fixpoint lstrip (l : list Z) : list Z :=
  match l with
  | cp :: r => if is_py_space cp then lstrip r else l
  | [] => []
  end.

Definition strip (l : list Z) : list Z :=
  rev (lstrip (rev (lstrip l))).

(** The default of [sys.int_max_str_digits]. *)
Definition int_max_str_digits : Z := 4300.

(** [digits acc count prev l]: [acc] is the value read so far, [count]
    the number of digits read, [prev] tells that the previous character
    was a digit (an underscore needs a digit on both sides). *)
Fixpoint digits (acc count : Z) (prev : bool) (l : list Z) : option Z :=
  match l with
  | [] => if prev && (count <=? int_max_str_digits) then Some acc else None
  | cp :: r =>
      match digit_of cp with
      | Some d => digits (10 * acc + d) (count + 1) true r
      | None => if (cp =? 95) && prev then digits acc count false r else None
      end
  end.

Definition parse_int (s : string) : option Z :=
  match utf8_decode s with
  | None => None
  | Some l =>
      match strip l with
      | 45 :: r => Z.opp <$> digits 0 0 false r
      | 43 :: r => digits 0 0 false r
      | r => digits 0 0 false r
      end
  end.

Definition int_of_str (s : string) : outcome Z :=
  match parse_int s with
  | Some z => Ok z
  | None => Raise ValueError
  end.

(** [[int(i) for i in other.split(".")]]: every component is converted,
    the first failure raises. *)
Fixpoint ints_of (l : list string) : outcome (list Z) :=
  match l with
  | [] => Ok []
  | s :: r =>
      match int_of_str s with
      | Ok z => match ints_of r with
                | Ok zs => Ok (z :: zs)
                | Raise e => Raise e
                end
      | Raise e => Raise e
      end
  end.


(** *** Subscripts, iteration and formatting *)

Global Instance outcome_ret : MRet outcome := @Ok.
Global Instance outcome_bind : MBind outcome := λ A B f m,
  match m with
  | Ok a => f a
  | Raise e => Raise e
  end.
Global Instance outcome_fmap : FMap outcome := λ A B f m,
  match m with
  | Ok a => Ok (f a)
  | Raise e => Raise e
  end.

(** [l[i]] for a list: a negative index counts from the end. *)
Definition list_index {A} (l : list A) (i : Z) : outcome A :=
  let n := Z.of_nat (length l) in
  let j := if i <? 0 then i + n else i in
  if (0 <=? j) && (j <? n)
  then match l !! Z.to_nat j with Some a => Ok a | None => Raise IndexError end
  else Raise IndexError.

(** [d[k]] for a dict held as an association list. *)
Fixpoint dict_lookup (d : list (string * value)) (k : string) : option value :=
  match d with
  | [] => None
  | (k', v) :: r => if String.eqb k' k then Some v else dict_lookup r k
  end.

(** The characters of a string, each a string of length one (taken byte
    by byte: the code only ever meets the first of them). *)
Fixpoint chars (s : string) : list string :=
  match s with
  | EmptyString => []
  | String c r => String c "" :: chars r
  end.

(** [c[k]]: subscript of a container by a key. *)
Definition subscript (c k : value) : outcome value :=
  match c, k with
  | VDict d, VStr s =>
      match dict_lookup d s with Some v => Ok v | None => Raise KeyError end
  | VDict _, (VList _ | VDict _) => Raise TypeError
  | VDict _, _ => Raise KeyError
  | VList l, VInt i => list_index l i
  | VList l, VBool b => list_index l (Z.b2z b)
  | VStr s, VInt i => VStr <$> list_index (chars s) i
  | VStr s, VBool b => VStr <$> list_index (chars s) (Z.b2z b)
  | _, _ => Raise TypeError
  end.

(** [for key in c]: the keys of a dict, the elements of a list, the
    characters of a string; nothing else can be iterated. *)
Definition iterate (c : value) : outcome (list value) :=
  match c with
  | VDict d => Ok (VStr <$> d.*1)
  | VList l => Ok l
  | VStr s => Ok (VStr <$> chars s)
  | _ => Raise TypeError
  end.

(** [f"{key}"] for the keys that reach line 94.  A key that is a float, a
    list or a dict never does: the subscript of line 87 raises [TypeError]
    for it (lemma [format_after_subscript]). *)
Definition format (key : value) : outcome string :=
  match key with
  | VStr s => Ok s
  | VInt z => Ok (pretty z)
  | VBool true => Ok "True"
  | VBool false => Ok "False"
  | VNone => Ok "None"
  | _ => Raise TypeError
  end.

(** [key in ["fontcolor", "highlight"]]. *)
Definition is_color_key (key : value) : bool :=
  match key with
  | VStr s => String.eqb s "fontcolor" || String.eqb s "highlight"
  | _ => false
  end.

(** ** The configuration store *)

(** Modelled from the spec: the class [ConfigManager] of the package
    [ankiaddonconfig] is imported by [firstrun.py] and its source is not
    at hand.  The spec calls it a key-value configuration store with no
    data model beyond flat key/value config, so the store is a finite map
    from the key strings the code writes to JSON values, with the mapping
    protocol of Python ([conf[k]] raises [KeyError] for a missing key,
    [conf.get(k, d)] gives [d]); [save] writes the in-memory map to the
    add-on's stored configuration, kept here as [disk]. *)
Module ConfigManager.

Record t : Type := mk { config : gmap string value; disk : gmap string value }.

Definition __getitem__ (c : t) (k : string) : outcome value :=
  match config c !! k with
  | Some v => Ok v
  | None => Raise KeyError
  end.

Definition get (c : t) (k : string) (default : value) : value :=
  match config c !! k with
  | Some v => v
  | None => default
  end.

Definition __contains__ (c : t) (k : string) : bool :=
  bool_decide (is_Some (config c !! k)).

Definition __setitem__ (c : t) (k : string) (v : value) : t :=
  mk (<[k := v]> (config c)) (disk c).

Definition __delitem__ (c : t) (k : string) : outcome t :=
  match config c !! k with
  | Some _ => Ok (mk (delete k (config c)) (disk c))
  | None => Raise KeyError
  end.

Definition save (c : t) : t := mk (config c) (config c).

End ConfigManager.

(** ** Program state and the statement monad *)

(** The [Version] object: its two attributes hold whatever the
    configuration stores, an [int] after a successful conversion. *)
Record Version : Type := mkVersion { major : value; minor : value }.

(** A dialog opened by [showText]: its type and title.  The static HTML
    body of the tutorial is not reproduced. *)
Record dialog : Type := showText { type : string; title : string }.

(** The module's globals: [conf], [version], and the dialogs shown so far. *)
Record State : Type := mkState {
  conf : ConfigManager.t;
  version : Version;
  dialogs : list dialog
}.

(** A statement maps a state to an outcome and the state it leaves; a
    raised exception keeps the mutations made before it. *)
Definition M (A : Type) : Type := State → outcome A * State.

Global Instance M_ret : MRet M := λ A a st, (Ok a, st).
Global Instance M_bind : MBind M := λ A B f m st,
  match m st with
  | (Ok a, st') => f a st'
  | (Raise e, st') => (Raise e, st')
  end.

(** An expression that may raise but does not touch the state. *)
Definition lift {A} (o : outcome A) : M A := λ st, (o, st).

Definition exec {A} (m : M A) (st : State) : State := (m st).2.
Definition result {A} (m : M A) (st : State) : outcome A := (m st).1.

Definition update_conf (f : ConfigManager.t → ConfigManager.t) : M unit :=
  λ st, (Ok tt, mkState (f (conf st)) (version st) (dialogs st)).

(** [conf[k]], [conf.get(k, d)], [k in conf], [conf[k] = v], [del conf[k]],
    [conf.save()]. *)
Definition conf_getitem (k : string) : M value :=
  λ st, (ConfigManager.__getitem__ (conf st) k, st).
Definition conf_get (k : string) (default : value) : M value :=
  λ st, (Ok (ConfigManager.get (conf st) k default), st).
Definition conf_contains (k : string) : M bool :=
  λ st, (Ok (ConfigManager.__contains__ (conf st) k), st).
Definition conf_setitem (k : string) (v : value) : M unit :=
  update_conf (λ c, ConfigManager.__setitem__ c k v).
Definition conf_delitem (k : string) : M unit :=
  λ st, match ConfigManager.__delitem__ (conf st) k with
        | Ok c => (Ok tt, mkState c (version st) (dialogs st))
        | Raise e => (Raise e, st)
        end.
Definition conf_save : M unit := update_conf ConfigManager.save.

(** [self.major = v], [self.minor = v] on the global [version]. *)
Definition set_major (v : value) : M unit :=
  λ st, (Ok tt, mkState (conf st) (mkVersion v (minor (version st))) (dialogs st)).
Definition set_minor (v : value) : M unit :=
  λ st, (Ok tt, mkState (conf st) (mkVersion (major (version st)) v) (dialogs st)).
Definition get_version : M Version := λ st, (Ok (version st), st).

(** [for x in l: body]. *)
Fixpoint for_each {A} (l : list A) (body : A → M unit) : M unit :=
  match l with
  | [] => mret tt
  | x :: r => body x ;; for_each r body
  end.

(** ** class Version *)

Module Version.

(** [load], lines 16-23.  The second conversion assigns to [self.major],
    as the source does. *)
Definition load : M unit :=
  v ← conf_getitem "version.major"; set_major v ;;
  v ← conf_getitem "version.minor"; set_minor v ;;
  self ← get_version;
  match major self with
  | VStr s => i ← lift (int_of_str s); set_major (VInt i)
  | _ => mret tt
  end ;;
  self ← get_version;
  match minor self with
  | VStr s => i ← lift (int_of_str s); set_major (VInt i)
  | _ => mret tt
  end.

(** [__init__] calls [load] on the new object. *)
Definition __init__ : M unit := load.

(** [ver = [int(i) for i in other.split(".")]]. *)
Definition ver (other : string) : outcome (list Z) :=
  ints_of (split_dot other).

(** The comparisons read [self] only.  [and] and [or] are lazy: [ver[1]]
    and [self.minor] are looked at only when the first operand does not
    decide. *)
Definition __eq__ (self : Version) (other : string) : outcome bool :=
  ver ← ver other;
  v0 ← list_index ver 0;
  if eq_int (major self) v0
  then v1 ← list_index ver 1; mret (eq_int (minor self) v1)
  else mret false.

Definition __gt__ (self : Version) (other : string) : outcome bool :=
  ver ← ver other;
  v0 ← list_index ver 0;
  b ← gt_int (major self) v0;
  if b : bool then mret true
  else
    v0 ← list_index ver 0;
    if eq_int (major self) v0
    then v1 ← list_index ver 1; gt_int (minor self) v1
    else mret false.

Definition __lt__ (self : Version) (other : string) : outcome bool :=
  ver ← ver other;
  v0 ← list_index ver 0;
  b ← lt_int (major self) v0;
  if b : bool then mret true
  else
    v0 ← list_index ver 0;
    if eq_int (major self) v0
    then v1 ← list_index ver 1; lt_int (minor self) v1
    else mret false.

Definition __ge__ (self : Version) (other : string) : outcome bool :=
  b ← __eq__ self other;
  if b : bool then mret true else __gt__ self other.

Definition __le__ (self : Version) (other : string) : outcome bool :=
  b ← __eq__ self other;
  if b : bool then mret true else __lt__ self other.

End Version.

(** [version == other] on the global [version]. *)
Definition version_eq (other : string) : M bool :=
  self ← get_version; lift (Version.__eq__ self other).

(** ** The module body *)

(** Lines 52-59. *)
Definition distinguish_initial_install : M unit :=
  b ← version_eq "-1.-1";
  if negb b then mret tt
  else
    undo ← conf_get "undo" VNone;
    if truthy undo then
      conf_setitem "version.major" (VInt 0) ;;
      conf_setitem "version.minor" (VInt 0) ;;
      conf_save ;;
      Version.load
    else mret tt.

(** Lines 68-77. *)
Definition change_resize_image_preserve_ratio : M unit :=
  resize_conf ← conf_getitem "resize_image_preserve_ratio";
  if negb (is_bool resize_conf) then mret tt
  else
    (if truthy resize_conf
     then conf_setitem "resize_image_preserve_ratio" (VInt 1)
     else conf_setitem "resize_image_preserve_ratio" (VInt 0)) ;;
    conf_save.

(** The body of the loop of lines 86-99 for one [key]. *)
Definition special_formatting_step (key : value) : M unit :=
  z ← conf_getitem "z_special_formatting";
  opts ← lift (subscript z key);
  '(enabled, arg) ←
    (if is_list opts
     then enabled ← lift (subscript opts (VInt 0));
          arg ← lift (subscript opts (VInt 1));
          mret (enabled, arg)
     else mret (opts, VNone));
  name ← lift (format key);
  conf_setitem ("special_formatting." +:+ name +:+ ".enabled") enabled ;;
  if is_not_None arg then
    name ← lift (format key);
    conf_setitem ("special_formatting." +:+ name +:+ ".arg")
      (VDict [("type", VStr (if is_color_key key then "color" else "text"));
              ("value", arg)])
  else mret tt.

(** Lines 83-102. *)
Definition change_special_formatting : M unit :=
  b ← conf_contains "z_special_formatting";
  if negb b then mret tt
  else
    z ← conf_getitem "z_special_formatting";
    keys ← lift (iterate z);
    for_each keys special_formatting_step ;;
    conf_delitem "z_special_formatting" ;;
    conf_save.

(** Lines 108-112. *)
Definition remove_undo : M unit :=
  b ← conf_contains "undo";
  if negb b then mret tt
  else conf_delitem "undo" ;; conf_save.

(** Lines 118-197: one call of [showText]. *)
Definition tutorial_dialog : dialog :=
  showText "html" "Edit Field During Review Cloze Enhanced".

Definition initial_tutorial : M unit :=
  λ st, (Ok tt, mkState (conf st) (version st) (dialogs st ++ [tutorial_dialog])).

(** What the host gives the module: the environment variable
    [EFDRC_VERSION] when it is set, and the dict [addonMeta] returns. *)
Record Env : Type := mkEnv {
  EFDRC_VERSION : option string;
  meta : list (string * value)
}.

(** Lines 204-208; the result of [meta.get] is whatever the dict holds. *)
Definition version_string (env : Env) : value :=
  match EFDRC_VERSION env with
  | Some s => if negb (String.eqb s "") then VStr s
              else default (VStr "6.23") (dict_lookup (meta env) "human_version")
  | None => default (VStr "6.23") (dict_lookup (meta env) "human_version")
  end.

(** [v.split(".")]: only a [str] has the method. *)
Definition split (v : value) : outcome (list string) :=
  match v with
  | VStr s => Ok (split_dot s)
  | _ => Raise AttributeError
  end.

(** Lines 210-212. *)
Definition save_current_version (env : Env) : M unit :=
  p ← lift (split (version_string env));
  s ← lift (list_index p 0);
  i ← lift (int_of_str s);
  conf_setitem "version.major" (VInt i) ;;
  p ← lift (split (version_string env));
  s ← lift (list_index p 1);
  i ← lift (int_of_str s);
  conf_setitem "version.minor" (VInt i) ;;
  conf_save.

(** The migrations of lines 80, 105 and 115, in order. *)
Definition migrations : M unit :=
  change_resize_image_preserve_ratio ;;
  change_special_formatting ;;
  remove_undo.

(** Lines 200-201. *)
Definition tutorial_guard : M unit :=
  b ← version_eq "-1.-1";
  if b : bool then initial_tutorial else mret tt.

(** The whole module, run at import. *)
Definition firstrun (env : Env) : M unit :=
  Version.__init__ ;;
  distinguish_initial_install ;;
  migrations ;;
  tutorial_guard ;;
  save_current_version env.

(** The state in which the module starts: the configuration as loaded, no
    dialog shown.  The attributes of [version] are bound by [load] before
    anything reads them. *)
Definition boot (c : ConfigManager.t) : State :=
  mkState c (mkVersion VNone VNone) [].

Definition cfg (l : list (string * value)) : ConfigManager.t :=
  ConfigManager.mk (list_to_map l) (list_to_map l).

(** [Version()] on a store: the object [__init__] builds, or the exception
    it raises. *)
Definition new_Version (c : ConfigManager.t) : outcome Version :=
  match Version.__init__ (boot c) with
  | (Ok _, st) => Ok (version st)
  | (Raise e, _) => Raise e
  end.

(** The state [distinguish_initial_install] leaves when it rewrites: the
    stored version is 0.0, the store is saved and [version] reloaded. *)
Definition rewritten (st : State) : State :=
  let c := <["version.minor" := VInt 0]>
             (<["version.major" := VInt 0]> (ConfigManager.config (conf st))) in
  mkState (ConfigManager.mk c c) (mkVersion (VInt 0) (VInt 0)) (dialogs st).

(** What a run of the module does once: the dialogs it shows, the
    [version] object it decides on, and the configuration it leaves apart
    from the two keys in which the add-on version is recorded. *)
Definition one_time_behaviour (env : Env) (c : ConfigManager.t)
  : list dialog * Version * gmap string value :=
  let st := exec (firstrun env) (boot c) in
  (dialogs st, version st,
   delete "version.major" (delete "version.minor" (ConfigManager.config (conf st)))).

(** *** The loop of [change_special_formatting] as a list of writes *)

(** The assignments one pass of the loop makes for [key], in order, when
    "z_special_formatting" holds [z]; every expression that can raise is
    evaluated before the first assignment. *)
Definition step_writes (z key : value) : outcome (list (string * value)) :=
  opts ← subscript z key;
  '(enabled, arg) ←
    (if is_list opts
     then enabled ← subscript opts (VInt 0);
          arg ← subscript opts (VInt 1);
          mret (enabled, arg)
     else mret (opts, VNone));
  name ← format key;
  mret (("special_formatting." +:+ name +:+ ".enabled", enabled) ::
        if is_not_None arg
        then [("special_formatting." +:+ name +:+ ".arg",
               VDict [("type", VStr (if is_color_key key then "color" else "text"));
                      ("value", arg)])]
        else []).

(** The assignments of the whole loop up to its end or to the first pass
    that raises, and that exception. *)
Fixpoint loop_writes (z : value) (keys : list value)
  : list (string * value) * option exn :=
  match keys with
  | [] => ([], None)
  | key :: r =>
      match step_writes z key with
      | Raise e => ([], Some e)
      | Ok ws => let '(ws', o) := loop_writes z r in ((ws ++ ws')%list, o)
      end
  end.

Definition write_all (ws : list (string * value)) (m : gmap string value)
  : gmap string value :=
  foldl (λ m kv, <[kv.1 := kv.2]> m) m ws.

Definition with_config (f : gmap string value → gmap string value)
    (st : State) : State :=
  mkState (ConfigManager.mk (f (ConfigManager.config (conf st)))
                            (ConfigManager.disk (conf st)))
          (version st) (dialogs st).

Definition saved (st : State) : State :=
  mkState (ConfigManager.save (conf st)) (version st) (dialogs st).

(** [opts[0]] and [opts[1]] for a list, [opts] and [None] otherwise. *)
Definition enabled_of (opts : value) : outcome value :=
  if is_list opts then subscript opts (VInt 0) else Ok opts.
Definition arg_of (opts : value) : outcome value :=
  if is_list opts then subscript opts (VInt 1) else Ok VNone.

(** An assignment to a key that begins with "special_formatting.". *)
Definition special (kv : string * value) : Prop :=
  String.prefix "special_formatting." kv.1 = true.

(** The assignments of one pass for the key [k] of a dict. *)
Definition key_writes (k : string) (enabled arg : value) : list (string * value) :=
  ("special_formatting." +:+ k +:+ ".enabled", enabled) ::
  if is_not_None arg
  then [("special_formatting." +:+ k +:+ ".arg",
         VDict [("type", VStr (if is_color_key (VStr k) then "color" else "text"));
                ("value", arg)])]
  else [].


(** The module up to the tutorial guard: everything but the final
    recording of the add-on version. *)
Definition until_tutorial : M unit :=
  Version.__init__ ;;
  distinguish_initial_install ;;
  migrations ;;
  tutorial_guard.

(** The module up to the migrations: what runs before line 200. *)
Definition before_tutorial : M unit :=
  Version.__init__ ;;
  distinguish_initial_install ;;
  migrations.

(** The module up to line 62. *)
Definition until_distinguish : M unit :=
  Version.__init__ ;;
  distinguish_initial_install.

(** The stored version, value by value: stored major [== -1] and stored
    minor [== -1]. *)
Definition stored_first_install (c : ConfigManager.t) : bool :=
  match ConfigManager.config c !! "version.major",
        ConfigManager.config c !! "version.minor" with
  | Some vM, Some vN => eq_int vM (-1) && eq_int vN (-1)
  | _, _ => false
  end.

(** *** Predicates used in the further properties *)

(** The values Python orders against an [int]: [int], [bool], [float]. *)
Definition numeric (v : value) : bool :=
  match v with
  | VInt _ | VBool _ | VFloat _ => true
  | _ => false
  end.

(** The stored configuration equals the one in memory. *)
Definition in_sync (st : State) : Prop :=
  ConfigManager.disk (conf st) = ConfigManager.config (conf st).

(** The keys the module reads or writes. *)
Definition own_key (k : string) : bool :=
  String.eqb k "version.major" || String.eqb k "version.minor" ||
  String.eqb k "resize_image_preserve_ratio" || String.eqb k "undo" ||
  String.eqb k "z_special_formatting" ||
  String.prefix "special_formatting." k.

(** * Properties *)

Example split_dot_ex : split_dot "6.23" = ["6"; "23"].
Proof. reflexivity. Qed.
Example split_dot_empty : split_dot "" = [""].
Proof. reflexivity. Qed.
Example parse_int_ex : parse_int " -1_0 " = Some (-10).
Proof. reflexivity. Qed.
Example parse_int_ex2 : parse_int "1__0" = None.
Proof. reflexivity. Qed.
Example ver_first_install : Version.ver "-1.-1" = Ok [-1; -1].
Proof. reflexivity. Qed.

(** The separators 28 to 31 are no blanks for [int]; the Unicode blanks
    and decimal digits are read. *)
Example parse_int_separator : parse_int ("3" +:+ String "028" "") = None.
Proof. vm_compute. reflexivity. Qed.
Example ver_separator :
  Version.ver ("6.3" +:+ String "028" "") = Raise ValueError.
Proof. vm_compute. reflexivity. Qed.
Example parse_int_arabic_indic : parse_int "٣" = Some 3.
Proof. vm_compute. reflexivity. Qed.
Example ver_arabic_indic : Version.ver "٦.٣" = Ok [6; 3].
Proof. vm_compute. reflexivity. Qed.
Example parse_int_fullwidth : parse_int "　-１２　" = Some (-12).
Proof. vm_compute. reflexivity. Qed.
Example parse_int_mixed : parse_int "1٢_٣" = Some 123.
Proof. vm_compute. reflexivity. Qed.
Example parse_int_not_utf8 : parse_int (String "192" (String "176" "")) = None.
Proof. vm_compute. reflexivity. Qed.

(** 4300 digits convert, 4301 do not, leading zeros included. *)
Example parse_int_digit_limit :
  parse_int (string_of_list_ascii (repeat "0"%char 4300)) = Some 0 ∧
  parse_int (string_of_list_ascii (repeat "0"%char 4301)) = None ∧
  is_Some (parse_int (string_of_list_ascii (repeat "7"%char 4300))) ∧
  parse_int (string_of_list_ascii (repeat "7"%char 4301)) = None.
Proof. vm_compute. repeat split; eauto. Qed.

(** ** Running statements *)

Lemma bind_Ok {A B} (m : M A) (f : A → M B) st a st' :
  m st = (Ok a, st') → (m ≫= f) st = f a st'.
Proof. intros H. unfold mbind, M_bind. by rewrite H. Qed.

Lemma bind_Raise {A B} (m : M A) (f : A → M B) st e st' :
  m st = (Raise e, st') → (m ≫= f) st = (Raise e, st').
Proof. intros H. unfold mbind, M_bind. by rewrite H. Qed.

Lemma bind_inv {A B} (m : M A) (f : A → M B) st b st2 :
  (m ≫= f) st = (Ok b, st2) →
  ∃ a st1, m st = (Ok a, st1) ∧ f a st1 = (Ok b, st2).
Proof.
  unfold mbind, M_bind. destruct (m st) as [[a|e] st1]; [eauto | discriminate].
Qed.

Ltac unfold_ops :=
  unfold version_eq, lift, conf_getitem, conf_get, conf_contains,
    conf_setitem, conf_delitem, conf_save, update_conf, set_major, set_minor,
    get_version, initial_tutorial,
    ConfigManager.__getitem__, ConfigManager.get, ConfigManager.__contains__,
    ConfigManager.__setitem__, ConfigManager.__delitem__, ConfigManager.save
    in *.

Ltac unfold_monad := unfold mbind, M_bind, mret, M_ret in *.

Ltac run := unfold_ops; unfold_monad; simpl in *.

(** ** List subscripts *)

Lemma list_index_0 {A} (a : A) l : list_index (a :: l) 0 = Ok a.
Proof.
  unfold list_index. cbn [length].
  replace (0 <? 0) with false by reflexivity. cbv beta zeta.
  replace (0 <=? 0) with true by reflexivity.
  destruct (Z.ltb_spec 0 (Z.of_nat (S (length l)))); [done | lia].
Qed.

Lemma list_index_1 {A} (a b : A) l : list_index (a :: b :: l) 1 = Ok b.
Proof.
  unfold list_index. cbn [length].
  replace (1 <? 0) with false by reflexivity. cbv beta zeta.
  replace (0 <=? 1) with true by reflexivity.
  destruct (Z.ltb_spec 1 (Z.of_nat (S (S (length l))))); [done | lia].
Qed.

Lemma list_index_nil {A} i : list_index (@nil A) i = Raise IndexError.
Proof.
  unfold list_index. cbn [length]. change (Z.of_nat 0) with 0. cbv zeta.
  destruct (i <? 0) eqn:E; cbv iota; rewrite ?Z.add_0_r.
  - apply Z.ltb_lt in E. destruct (Z.leb_spec 0 i); [lia | done].
  - by rewrite E, andb_false_r.
Qed.

(** ** The comparison operators *)

Section comparisons.

Variables (a b : Z) (other : string) (m n : Z) (rest : list Z).
Hypothesis Hver : Version.ver other = Ok (m :: n :: rest).

Let self := mkVersion (VInt a) (VInt b).

Local Ltac index_0 := rewrite (list_index_0 m (n :: rest)); cbn -[list_index].
Local Ltac index_1 := rewrite (list_index_1 m n rest); cbn -[list_index].

Lemma eq_ints : Version.__eq__ self other = Ok ((a =? m) && (b =? n)).
Proof.
  unfold Version.__eq__. rewrite Hver. cbn [mbind outcome_bind].
  index_0. destruct (a =? m); [by index_1 | done].
Qed.

Lemma gt_ints :
  Version.__gt__ self other = Ok ((m <? a) || ((a =? m) && (n <? b))).
Proof.
  unfold Version.__gt__. rewrite Hver. cbn [mbind outcome_bind].
  index_0. destruct (m <? a); [done |].
  destruct (a =? m); [by index_1 | done].
Qed.

Lemma lt_ints :
  Version.__lt__ self other = Ok ((a <? m) || ((a =? m) && (b <? n))).
Proof.
  unfold Version.__lt__. rewrite Hver. cbn [mbind outcome_bind].
  index_0. destruct (a <? m); [done |].
  destruct (a =? m); [by index_1 | done].
Qed.

End comparisons.

Lemma le_ints (a b : Z) other m n rest :
  Version.ver other = Ok (m :: n :: rest) →
  Version.__le__ (mkVersion (VInt a) (VInt b)) other =
    Ok (((a <? m) || ((a =? m) && (b <? n))) || ((a =? m) && (b =? n))).
Proof.
  intros H. unfold Version.__le__.
  rewrite (eq_ints _ _ _ _ _ _ H), (lt_ints _ _ _ _ _ _ H).
  cbn [mbind outcome_bind mret outcome_ret].
  destruct ((a =? m) && (b =? n)); by rewrite ?orb_true_r, ?orb_false_r.
Qed.

Lemma ge_ints (a b : Z) other m n rest :
  Version.ver other = Ok (m :: n :: rest) →
  Version.__ge__ (mkVersion (VInt a) (VInt b)) other =
    Ok (((m <? a) || ((a =? m) && (n <? b))) || ((a =? m) && (b =? n))).
Proof.
  intros H. unfold Version.__ge__.
  rewrite (eq_ints _ _ _ _ _ _ H), (gt_ints _ _ _ _ _ _ H).
  cbn [mbind outcome_bind mret outcome_ret].
  destruct ((a =? m) && (b =? n)); by rewrite ?orb_true_r, ?orb_false_r.
Qed.

(** C10.  For a [Version] whose attributes are the integers [a] and [b]
    and a version string whose components all convert, the first two to
    [m] and [n]: the three strict comparisons return booleans that decide
    equality and the lexicographic order of [(a, b)] against [(m, n)],
    exactly one of them is true, [__le__] is [__lt__ or __eq__] and
    [__ge__] is [__gt__ or __eq__]. *)
Theorem Version_comparisons_lexicographic
    (a b : Z) (other : string) (m n : Z) (rest : list Z) :
  Version.ver other = Ok (m :: n :: rest) →
  let self := mkVersion (VInt a) (VInt b) in
  ∃ e l g : bool,
    Version.__eq__ self other = Ok e ∧
    Version.__lt__ self other = Ok l ∧
    Version.__gt__ self other = Ok g ∧
    (e = true ↔ a = m ∧ b = n) ∧
    (l = true ↔ a < m ∨ (a = m ∧ b < n)) ∧
    (g = true ↔ m < a ∨ (a = m ∧ n < b)) ∧
    ((e = true ∧ l = false ∧ g = false) ∨
     (e = false ∧ l = true ∧ g = false) ∨
     (e = false ∧ l = false ∧ g = true)) ∧
    Version.__le__ self other = Ok (l || e) ∧
    Version.__ge__ self other = Ok (g || e).
Proof.
  intros H self. subst self.
  eexists _, _, _.
  split; [exact (eq_ints _ _ _ _ _ _ H) |].
  split; [exact (lt_ints _ _ _ _ _ _ H) |].
  split; [exact (gt_ints _ _ _ _ _ _ H) |].
  split; [| split; [| split; [| split; [| split]]]].
  - rewrite andb_true_iff, !Z.eqb_eq. tauto.
  - rewrite orb_true_iff, andb_true_iff, Z.eqb_eq, !Z.ltb_lt. tauto.
  - rewrite orb_true_iff, andb_true_iff, Z.eqb_eq, !Z.ltb_lt. tauto.
  - destruct (Z.eqb_spec a m), (Z.eqb_spec b n), (Z.ltb_spec a m),
      (Z.ltb_spec m a), (Z.ltb_spec b n), (Z.ltb_spec n b);
      cbn; try lia; tauto.
  - exact (le_ints _ _ _ _ _ _ H).
  - exact (ge_ints _ _ _ _ _ _ H).
Qed.

Lemma Version_comparisons_lexicographic_witness :
  Version.ver "6.23" = Ok [6; 23] ∧
  ∃ e l g : bool,
    Version.__eq__ (mkVersion (VInt 6) (VInt 3)) "6.23" = Ok e ∧
    Version.__lt__ (mkVersion (VInt 6) (VInt 3)) "6.23" = Ok l ∧
    Version.__gt__ (mkVersion (VInt 6) (VInt 3)) "6.23" = Ok g ∧
    (e = true ↔ 6 = 6 ∧ 3 = 23) ∧
    (l = true ↔ 6 < 6 ∨ (6 = 6 ∧ 3 < 23)) ∧
    (g = true ↔ 6 < 6 ∨ (6 = 6 ∧ 23 < 3)) ∧
    ((e = true ∧ l = false ∧ g = false) ∨
     (e = false ∧ l = true ∧ g = false) ∨
     (e = false ∧ l = false ∧ g = true)) ∧
    Version.__le__ (mkVersion (VInt 6) (VInt 3)) "6.23" = Ok (l || e) ∧
    Version.__ge__ (mkVersion (VInt 6) (VInt 3)) "6.23" = Ok (g || e).
Proof.
  split; [reflexivity |].
  apply (Version_comparisons_lexicographic 6 3 "6.23" 6 23 []). reflexivity.
Defined.

(** ** [Version.load] *)

Lemma load_frame st :
  conf (exec Version.load st) = conf st ∧
  dialogs (exec Version.load st) = dialogs st.
Proof.
  unfold exec, Version.load, int_of_str. run.
  destruct (ConfigManager.config (conf st) !! "version.major") as [vM|];
    [| done]; simpl.
  destruct (ConfigManager.config (conf st) !! "version.minor") as [vN|];
    [| done]; simpl.
  destruct vM; simpl; try destruct (parse_int _); simpl;
    destruct vN; simpl; try destruct (parse_int _); done.
Qed.

(** When neither stored value is a string, [load] copies both. *)
Lemma load_not_str st vM vN :
  ConfigManager.config (conf st) !! "version.major" = Some vM →
  ConfigManager.config (conf st) !! "version.minor" = Some vN →
  is_str vM = false → is_str vN = false →
  Version.load st = (Ok tt, mkState (conf st) (mkVersion vM vN) (dialogs st)).
Proof.
  intros HM HN SM SN. unfold Version.load. run. rewrite HM; simpl.
  rewrite HN; simpl. destruct vM; try done; destruct vN; done.
Qed.

(** What [load] returns and the object it leaves depend on the store
    only, not on the attributes the object had. *)
Lemma load_conf_only st1 st2 :
  conf st1 = conf st2 →
  result Version.load st1 = result Version.load st2 ∧
  (result Version.load st1 = Ok tt →
   version (exec Version.load st1) = version (exec Version.load st2)).
Proof.
  intros E. unfold result, exec, Version.load, int_of_str. run. rewrite E.
  destruct (ConfigManager.config (conf st2) !! "version.major") as [vM|];
    [| done]; simpl.
  destruct (ConfigManager.config (conf st2) !! "version.minor") as [vN|];
    [| done]; simpl.
  destruct vM; simpl; try destruct (parse_int _); simpl;
    destruct vN; simpl; try destruct (parse_int _); done.
Qed.

(** When both stored values are strings that convert, [load] leaves the
    converted minor in [major] and the string in [minor]. *)
Lemma load_strings st sM sN zM zN :
  ConfigManager.config (conf st) !! "version.major" = Some (VStr sM) →
  ConfigManager.config (conf st) !! "version.minor" = Some (VStr sN) →
  parse_int sM = Some zM → parse_int sN = Some zN →
  Version.load st =
    (Ok tt, mkState (conf st) (mkVersion (VInt zN) (VStr sN)) (dialogs st)).
Proof.
  intros HM HN PM PN. unfold Version.load, int_of_str. run.
  rewrite HM; simpl. rewrite HN; simpl. rewrite PM; simpl. by rewrite PN.
Qed.

(** C8.  On the stored version "6"."23", two decimal digit strings,
    [Version.load] returns with [major] holding 23, the value of the
    stored minor, and [minor] still holding the string "23": neither
    attribute is the integer value of its stored string. *)
Theorem Version_load_digit_strings :
  let st := boot (cfg [("version.major", VStr "6"); ("version.minor", VStr "23")]) in
  result Version.load st = Ok tt ∧
  major (version (exec Version.load st)) = VInt 23 ∧
  minor (version (exec Version.load st)) = VStr "23" ∧
  major (version (exec Version.load st)) ≠ VInt 6 ∧
  minor (version (exec Version.load st)) ≠ VInt 23.
Proof. vm_compute. repeat split; discriminate. Qed.

(** ** [version == "-1.-1"] *)

Lemma eq_first_install self :
  Version.__eq__ self "-1.-1" =
    Ok (eq_int (major self) (-1) && eq_int (minor self) (-1)).
Proof.
  unfold Version.__eq__.
  change (Version.ver "-1.-1") with (Ok (A := list Z) [-1; -1]).
  cbn [mbind outcome_bind]. rewrite (list_index_0 (-1) [-1]).
  cbn [mbind outcome_bind]. destruct (eq_int (major self) (-1)); [| done].
  by rewrite (list_index_1 (-1) (-1) []).
Qed.

Lemma version_eq_first_install st :
  version_eq "-1.-1" st =
    (Ok (eq_int (major (version st)) (-1) && eq_int (minor (version st)) (-1)), st).
Proof. unfold version_eq. run. by rewrite eq_first_install. Qed.

(** ** [distinguish_initial_install] *)

Lemma distinguish_run st :
  distinguish_initial_install st =
    if eq_int (major (version st)) (-1) && eq_int (minor (version st)) (-1)
       && truthy (ConfigManager.get (conf st) "undo" VNone)
    then (Ok tt, rewritten st)
    else (Ok tt, st).
Proof.
  unfold distinguish_initial_install.
  rewrite (bind_Ok _ _ _ _ _ (version_eq_first_install st)).
  destruct (eq_int (major (version st)) (-1) && eq_int (minor (version st)) (-1));
    [| done].
  cbn [negb andb]. unfold conf_get at 1. unfold mbind at 1, M_bind at 1.
  destruct (truthy (ConfigManager.get (conf st) "undo" VNone)); [| done].
  unfold conf_setitem, conf_save, update_conf. unfold_monad. cbn.
  rewrite (load_not_str _ (VInt 0) (VInt 0)); try done; cbn.
  - by rewrite lookup_insert_ne, lookup_insert_eq.
  - by rewrite lookup_insert_eq.
Qed.



(** ** [change_resize_image_preserve_ratio] *)

(** C5.  With a boolean stored under "resize_image_preserve_ratio" the
    function stores the integer 1 for [True] and 0 for [False] and saves;
    with any other stored value it returns and the state is as before. *)
Theorem change_resize_image_preserve_ratio_spec (st : State) (v : value) :
  ConfigManager.config (conf st) !! "resize_image_preserve_ratio" = Some v →
  (∀ b : bool, v = VBool b →
     let c := <["resize_image_preserve_ratio" := VInt (if b then 1 else 0)]>
                (ConfigManager.config (conf st)) in
     change_resize_image_preserve_ratio st =
       (Ok tt, mkState (ConfigManager.mk c c) (version st) (dialogs st))) ∧
  (is_bool v = false → change_resize_image_preserve_ratio st = (Ok tt, st)).
Proof.
  intros Hv. unfold change_resize_image_preserve_ratio. run. rewrite Hv.
  split.
  - intros b ->. by destruct b.
  - intros Hb. by rewrite Hb.
Qed.

Lemma change_resize_image_preserve_ratio_spec_witness :
  let st := boot (cfg [("resize_image_preserve_ratio", VBool true)]) in
  ConfigManager.config (conf st) !! "resize_image_preserve_ratio" = Some (VBool true) ∧
  change_resize_image_preserve_ratio st =
    (Ok tt, boot (cfg [("resize_image_preserve_ratio", VInt 1)])).
Proof.
  intros st.
  assert (Hv : ConfigManager.config (conf st) !! "resize_image_preserve_ratio"
               = Some (VBool true)) by (vm_compute; reflexivity).
  split; [exact Hv |].
  rewrite (proj1 (change_resize_image_preserve_ratio_spec st _ Hv) true eq_refl).
  reflexivity.
Defined.

(** ** Strings and keys *)

Lemma prefix_app p s : String.prefix p (p +:+ s) = true.
Proof.
  induction p as [| c p IH]; [by destruct s |].
  change (String c p +:+ s) with (String c (p +:+ s)). cbn [String.prefix].
  by destruct (ascii_dec c c).
Qed.

Lemma prefix_special name rest :
  String.prefix "special_formatting." ("special_formatting." +:+ name +:+ rest) = true.
Proof. apply prefix_app. Qed.








(** ** Sequences of assignments *)

Lemma write_all_app ws1 ws2 m :
  write_all (ws1 ++ ws2) m = write_all ws2 (write_all ws1 m).
Proof. unfold write_all. by rewrite foldl_app. Qed.

Lemma write_all_cons k v ws m :
  write_all ((k, v) :: ws) m = write_all ws (<[k:=v]> m).
Proof. reflexivity. Qed.

Lemma write_all_union ws m : write_all ws m = write_all ws ∅ ∪ m.
Proof.
  revert m. induction ws as [| [k v] ws IH]; intros m.
  - unfold write_all; cbn. by rewrite (left_id_L ∅ (∪)).
  - rewrite !write_all_cons.
    rewrite (IH (<[k:=v]> m)), (IH (<[k:=v]> ∅)).
    rewrite <- (assoc_L (∪)). f_equal.
    by rewrite <- insert_union_l, (left_id_L ∅ (∪)).
Qed.

(** Making the same assignments a second time changes nothing. *)
Lemma write_all_replay ws m : write_all ws (write_all ws m) = write_all ws m.
Proof.
  rewrite (write_all_union ws (write_all ws m)), (write_all_union ws m).
  by rewrite (assoc_L (∪)), (idemp_L (∪)).
Qed.

Lemma write_all_lookup_other ws m q :
  Forall (λ kv, kv.1 ≠ q) ws → write_all ws m !! q = m !! q.
Proof.
  revert m. induction ws as [| [k v] ws IH]; intros m H; [done |].
  inversion_clear H as [| ? ? Hk Hws]. rewrite write_all_cons.
  rewrite IH by done.
  by rewrite lookup_insert_ne.
Qed.

Lemma write_all_lookup_not_special ws m q :
  Forall special ws → String.prefix "special_formatting." q = false →
  write_all ws m !! q = m !! q.
Proof.
  intros H Hq. apply write_all_lookup_other.
  eapply Forall_impl; [exact H |]. intros kv Hkv E.
  unfold special in Hkv. rewrite E in Hkv. congruence.
Qed.


(** ** The loop of [change_special_formatting] *)

Lemma step_writes_special z key ws :
  step_writes z key = Ok ws → Forall special ws.
Proof.
  unfold step_writes. destruct (subscript z key) as [opts|]; [| done].
  cbn [mbind outcome_bind].
  destruct (if is_list opts then _ else _) as [[enabled arg]|]; [| done].
  cbn [mbind outcome_bind]. destruct (format key) as [name|]; [| done].
  cbn [mbind outcome_bind mret outcome_ret]. intros [= <-].
  constructor; [apply prefix_special |].
  destruct (is_not_None arg); [| done].
  constructor; [apply prefix_special | done].
Qed.

Lemma loop_writes_special z keys : Forall special (loop_writes z keys).1.
Proof.
  induction keys as [| key r IH]; cbn; [done |].
  destruct (step_writes z key) as [ws|] eqn:E; [| done].
  destruct (loop_writes z r) as [ws' o]. cbn in *.
  apply Forall_app. split; [by eapply step_writes_special | done].
Qed.

Lemma with_config_write_all ws1 ws2 st :
  with_config (write_all ws2) (with_config (write_all ws1) st) =
  with_config (write_all (ws1 ++ ws2)) st.
Proof. unfold with_config; cbn. by rewrite write_all_app. Qed.

Lemma with_config_nil st : with_config (write_all []) st = st.
Proof. by destruct st as [[c d] v ds]. Qed.

Lemma special_keeps_z ws m :
  Forall special ws →
  write_all ws m !! "z_special_formatting" = m !! "z_special_formatting".
Proof. intros H. by apply write_all_lookup_not_special. Qed.

(** One pass of the loop makes the assignments of [step_writes], or raises
    before the first of them. *)
Lemma special_formatting_step_run key st z :
  ConfigManager.config (conf st) !! "z_special_formatting" = Some z →
  special_formatting_step key st =
    match step_writes z key with
    | Ok ws => (Ok tt, with_config (write_all ws) st)
    | Raise e => (Raise e, st)
    end.
Proof.
  intros Hz. unfold special_formatting_step, step_writes. run. rewrite Hz.
  destruct (subscript z key) as [opts|]; [| done]. cbn.
  destruct (is_list opts); cbn.
  - destruct (subscript opts (VInt 0)) as [enabled|]; [| done]. cbn.
    destruct (subscript opts (VInt 1)) as [arg|]; [| done]. cbn.
    destruct (format key) as [name|]; [| done]. cbn.
    destruct (is_not_None arg); done.
  - destruct (format key) as [name|]; [| done]. cbn.
    by destruct st as [[c d] v ds].
Qed.

Lemma for_each_step_run keys st z :
  ConfigManager.config (conf st) !! "z_special_formatting" = Some z →
  for_each keys special_formatting_step st =
    (match (loop_writes z keys).2 with None => Ok tt | Some e => Raise e end,
     with_config (write_all (loop_writes z keys).1) st).
Proof.
  revert st. induction keys as [| key r IH]; intros st Hz.
  { cbn. by rewrite with_config_nil. }
  cbn [for_each loop_writes]. unfold mbind at 1, M_bind at 1.
  rewrite (special_formatting_step_run _ _ _ Hz).
  destruct (step_writes z key) as [ws|] eqn:E.
  - rewrite IH.
    + destruct (loop_writes z r) as [ws' o]. cbn [fst snd].
      by rewrite with_config_write_all.
    + cbn. rewrite special_keeps_z; [done |]. by eapply step_writes_special.
  - cbn. by rewrite with_config_nil.
Qed.

(** The whole of [change_special_formatting]. *)
Lemma change_special_formatting_run st :
  change_special_formatting st =
    match ConfigManager.config (conf st) !! "z_special_formatting" with
    | None => (Ok tt, st)
    | Some z =>
        match iterate z with
        | Raise e => (Raise e, st)
        | Ok keys =>
            match (loop_writes z keys).2 with
            | Some e =>
                (Raise e, with_config (write_all (loop_writes z keys).1) st)
            | None =>
                (Ok tt,
                 saved (with_config
                          (λ m, delete "z_special_formatting"
                                  (write_all (loop_writes z keys).1 m)) st))
            end
        end
    end.
Proof.
  unfold change_special_formatting.
  unfold conf_contains at 1, conf_getitem at 1, lift at 1.
  unfold ConfigManager.__contains__, ConfigManager.__getitem__.
  unfold mbind at 1 2 3, M_bind at 1 2 3.
  destruct (ConfigManager.config (conf st) !! "z_special_formatting")
    as [z|] eqn:Hz;
    [| by rewrite bool_decide_eq_false_2 by apply is_Some_None].
  rewrite bool_decide_eq_true_2 by eauto. cbn [negb]. rewrite Hz.
  destruct (iterate z) as [keys|]; [| done].
  unfold mbind at 1, M_bind at 1. rewrite (for_each_step_run _ _ _ Hz).
  pose proof (loop_writes_special z keys) as Hsp.
  destruct (loop_writes z keys) as [ws o]. cbn [fst snd] in *.
  destruct o as [e|]; [done |].
  unfold conf_delitem, conf_save, update_conf, ConfigManager.__delitem__.
  unfold_monad. cbn. rewrite special_keeps_z by done. by rewrite Hz.
Qed.

(** A key that can be subscripted can be formatted: the error case of
    [format] is never reached in the loop. *)
Lemma format_after_subscript z key opts :
  subscript z key = Ok opts → ∃ name, format key = Ok name.
Proof.
  destruct z, key as [| [] | | | | |]; cbn; try done; eauto.
Qed.

(** ** Frame properties *)

Lemma change_resize_frame st k :
  k ≠ "resize_image_preserve_ratio" →
  ConfigManager.config (conf (exec change_resize_image_preserve_ratio st)) !! k
  = ConfigManager.config (conf st) !! k.
Proof.
  intros Hk. unfold exec, change_resize_image_preserve_ratio. run.
  destruct (ConfigManager.config (conf st) !! "resize_image_preserve_ratio")
    as [v|]; [| done].
  destruct v as [| [] | | | | |]; cbn; try done; by rewrite lookup_insert_ne.
Qed.

Lemma remove_undo_run st :
  remove_undo st =
    match ConfigManager.config (conf st) !! "undo" with
    | Some _ => (Ok tt, saved (with_config (delete "undo") st))
    | None => (Ok tt, st)
    end.
Proof.
  unfold remove_undo. run.
  destruct (ConfigManager.config (conf st) !! "undo") as [v|] eqn:Hv.
  - rewrite bool_decide_eq_true_2 by eauto. cbn. by rewrite Hv.
  - by rewrite bool_decide_eq_false_2 by apply is_Some_None.
Qed.

Lemma remove_undo_frame st k :
  k ≠ "undo" →
  ConfigManager.config (conf (exec remove_undo st)) !! k
  = ConfigManager.config (conf st) !! k.
Proof.
  intros Hk. unfold exec. rewrite remove_undo_run.
  destruct (ConfigManager.config (conf st) !! "undo"); [| done].
  cbn. by rewrite lookup_delete_ne.
Qed.

Lemma change_special_formatting_frame st k :
  k ≠ "z_special_formatting" →
  String.prefix "special_formatting." k = false →
  ConfigManager.config (conf (exec change_special_formatting st)) !! k
  = ConfigManager.config (conf st) !! k.
Proof.
  intros Hk Hp. unfold exec. rewrite change_special_formatting_run.
  destruct (ConfigManager.config (conf st) !! "z_special_formatting")
    as [z|]; [| done].
  destruct (iterate z) as [keys|]; [| done].
  pose proof (loop_writes_special z keys) as Hsp.
  destruct (loop_writes z keys) as [ws [e|]]; cbn in *.
  - by apply write_all_lookup_not_special.
  - rewrite lookup_delete_ne by done. by apply write_all_lookup_not_special.
Qed.

Lemma distinguish_frame st k :
  k ≠ "version.major" → k ≠ "version.minor" →
  ConfigManager.config (conf (exec distinguish_initial_install st)) !! k
  = ConfigManager.config (conf st) !! k.
Proof.
  intros H1 H2. unfold exec. rewrite distinguish_run.
  destruct (_ && _); [| done]. cbn.
  by rewrite !lookup_insert_ne.
Qed.

(** C7.  Each rewrite is confined to its own keys: the resize migration
    to "resize_image_preserve_ratio", [remove_undo] to "undo",
    [change_special_formatting] to "z_special_formatting" and the keys
    that begin with "special_formatting.", and
    [distinguish_initial_install] to "version.major" and "version.minor".
    Every other key of the configuration holds after the call what it
    held before, whether the call returns or raises. *)
Theorem migrations_confined (st : State) (k : string) :
  (k ≠ "resize_image_preserve_ratio" →
   ConfigManager.config (conf (exec change_resize_image_preserve_ratio st)) !! k
   = ConfigManager.config (conf st) !! k) ∧
  (k ≠ "undo" →
   ConfigManager.config (conf (exec remove_undo st)) !! k
   = ConfigManager.config (conf st) !! k) ∧
  (k ≠ "z_special_formatting" →
   String.prefix "special_formatting." k = false →
   ConfigManager.config (conf (exec change_special_formatting st)) !! k
   = ConfigManager.config (conf st) !! k) ∧
  (k ≠ "version.major" → k ≠ "version.minor" →
   ConfigManager.config (conf (exec distinguish_initial_install st)) !! k
   = ConfigManager.config (conf st) !! k).
Proof.
  split; [apply change_resize_frame |].
  split; [apply remove_undo_frame |].
  split; [apply change_special_formatting_frame | apply distinguish_frame].
Qed.

(** ** Idempotence *)

Lemma change_resize_twice st :
  change_resize_image_preserve_ratio
    (exec change_resize_image_preserve_ratio st)
  = (result change_resize_image_preserve_ratio st,
     exec change_resize_image_preserve_ratio st).
Proof.
  unfold exec, result, change_resize_image_preserve_ratio. run.
  destruct (ConfigManager.config (conf st) !! "resize_image_preserve_ratio")
    as [v|] eqn:Hv; cbn; [| by rewrite Hv].
  destruct v as [| [] | | | | |]; cbn; rewrite ?Hv, ?lookup_insert_eq; done.
Qed.

Lemma remove_undo_twice st :
  remove_undo (exec remove_undo st) = (result remove_undo st, exec remove_undo st).
Proof.
  unfold exec, result. rewrite (remove_undo_run st).
  destruct (ConfigManager.config (conf st) !! "undo") eqn:Hv; cbn.
  - rewrite remove_undo_run. cbn. by rewrite lookup_delete_eq.
  - rewrite remove_undo_run. by rewrite Hv.
Qed.

Lemma change_special_formatting_twice st :
  change_special_formatting (exec change_special_formatting st)
  = (result change_special_formatting st, exec change_special_formatting st).
Proof.
  unfold exec, result. rewrite (change_special_formatting_run st).
  destruct (ConfigManager.config (conf st) !! "z_special_formatting")
    as [z|] eqn:Hz; cbn.
  2: { rewrite change_special_formatting_run. by rewrite Hz. }
  destruct (iterate z) as [keys|] eqn:Hit; cbn.
  2: { rewrite change_special_formatting_run. by rewrite Hz, Hit. }
  pose proof (loop_writes_special z keys) as Hsp.
  destruct (loop_writes z keys) as [ws [e|]] eqn:Hl; cbn in *.
  - rewrite change_special_formatting_run. cbn.
    rewrite special_keeps_z by done. rewrite Hz, Hit, Hl. cbn.
    unfold with_config; cbn. by rewrite write_all_replay.
  - rewrite change_special_formatting_run. cbn.
    by rewrite lookup_delete_eq.
Qed.

(** C2.  Each migration is idempotent: run again on the state its first
    run left, it ends as the first run did and leaves that state as it
    is. *)
Theorem migrations_idempotent (st : State) :
  (change_resize_image_preserve_ratio (exec change_resize_image_preserve_ratio st)
   = (result change_resize_image_preserve_ratio st,
      exec change_resize_image_preserve_ratio st)) ∧
  (change_special_formatting (exec change_special_formatting st)
   = (result change_special_formatting st, exec change_special_formatting st)) ∧
  (remove_undo (exec remove_undo st)
   = (result remove_undo st, exec remove_undo st)).
Proof.
  split; [apply change_resize_twice |].
  split; [apply change_special_formatting_twice | apply remove_undo_twice].
Qed.

Lemma migrations_confined_witness :
  let st := boot (cfg [("resize_image_preserve_ratio", VBool false);
                       ("undo", VBool true);
                       ("z_special_formatting", VDict [("bold", VBool true)]);
                       ("version.major", VInt 6)]) in
  "version.major" ≠ "resize_image_preserve_ratio" ∧
  "version.major" ≠ "undo" ∧
  "version.major" ≠ "z_special_formatting" ∧
  String.prefix "special_formatting." "version.major" = false ∧
  "undo" ≠ "version.major" ∧ "undo" ≠ "version.minor" ∧
  ConfigManager.config (conf (exec change_resize_image_preserve_ratio st))
    !! "version.major" = Some (VInt 6) ∧
  ConfigManager.config (conf (exec remove_undo st)) !! "version.major"
    = Some (VInt 6) ∧
  ConfigManager.config (conf (exec change_special_formatting st))
    !! "version.major" = Some (VInt 6) ∧
  ConfigManager.config (conf (exec distinguish_initial_install st)) !! "undo"
    = Some (VBool true).
Proof.
  intros st.
  assert (H1 : "version.major" ≠ "resize_image_preserve_ratio") by discriminate.
  assert (H2 : "version.major" ≠ "undo") by discriminate.
  assert (H3 : "version.major" ≠ "z_special_formatting") by discriminate.
  assert (H4 : String.prefix "special_formatting." "version.major" = false)
    by reflexivity.
  assert (H5 : "undo" ≠ "version.major") by discriminate.
  assert (H6 : "undo" ≠ "version.minor") by discriminate.
  destruct (migrations_confined st "version.major") as (F1 & F2 & F3 & _).
  destruct (migrations_confined st "undo") as (_ & _ & _ & F4).
  repeat (split; [assumption |]).
  rewrite (F1 H1), (F2 H2), (F3 H3 H4), (F4 H5 H6).
  repeat split; vm_compute; reflexivity.
Defined.

(** ** [change_special_formatting] on a dict *)

Lemma step_writes_dict d k :
  step_writes (VDict d) (VStr k) =
    match dict_lookup d k with
    | None => Raise KeyError
    | Some opts =>
        enabled ← enabled_of opts; arg ← arg_of opts;
        mret (key_writes k enabled arg)
    end.
Proof.
  unfold step_writes, enabled_of, arg_of. cbn [subscript].
  destruct (dict_lookup d k) as [opts|]; [| done].
  cbn [mbind outcome_bind]. destruct (is_list opts); [| done].
  destruct (subscript opts (VInt 0)); [| done]. cbn [mbind outcome_bind].
  by destruct (subscript opts (VInt 1)).
Qed.


Lemma elem_dict_lookup d k : k ∈ d.*1 → is_Some (dict_lookup d k).
Proof.
  induction d as [| [k' v'] d IH]; cbn; [by intros ?%elem_of_nil |].
  destruct (String.eqb_spec k' k) as [-> | Hne]; [eauto |].
  intros [-> | H]%elem_of_cons; [done | auto].
Qed.

Section dict_loop.

Variable d : list (string * value).



(** The loop completes when every list among the values has its two
    elements. *)
Lemma loop_writes_completes ks :
  (∀ k, k ∈ ks → ∃ opts enabled arg, dict_lookup d k = Some opts ∧
                   enabled_of opts = Ok enabled ∧ arg_of opts = Ok arg) →
  (loop_writes (VDict d) (VStr <$> ks)).2 = None.
Proof.
  induction ks as [| k ks IH]; intros H; cbn [fmap list_fmap loop_writes];
    [done |].
  rewrite step_writes_dict.
  destruct (H k) as (opts & enabled & arg & -> & -> & ->); [by left |].
  cbn [mbind outcome_bind mret outcome_ret].
  destruct (loop_writes (VDict d) (VStr <$> ks)) as [ws' o] eqn:Hr.
  cbn in *. apply IH. intros k' ?. apply H. by right.
Qed.

End dict_loop.



Lemma options_of_list l :
  (2 ≤ length l)%nat →
  ∃ enabled arg, enabled_of (VList l) = Ok enabled ∧ arg_of (VList l) = Ok arg.
Proof.
  destruct l as [| x [| y l]]; cbn [length]; [lia | lia |]. intros _.
  exists x, y. unfold enabled_of, arg_of. cbn [is_list subscript].
  by rewrite list_index_0, list_index_1.
Qed.

Lemma options_of_other opts :
  is_list opts = false → enabled_of opts = Ok opts ∧ arg_of opts = Ok VNone.
Proof. unfold enabled_of, arg_of. by intros ->. Qed.



(** ** The module as a whole *)

Lemma exec_bind {A B} (m : M A) (f : A → M B) st :
  exec (m ≫= f) st =
    match m st with
    | (Ok a, st') => exec (f a) st'
    | (Raise _, st') => st'
    end.
Proof. unfold exec, mbind, M_bind. by destruct (m st) as [[a|e] st']. Qed.

Lemma result_bind {A B} (m : M A) (f : A → M B) st :
  result (m ≫= f) st =
    match m st with
    | (Ok a, st') => result (f a) st'
    | (Raise e, _) => Raise e
    end.
Proof. unfold result, mbind, M_bind. by destruct (m st) as [[a|e] st']. Qed.

Lemma firstrun_split env st :
  firstrun env st = (until_tutorial ;; save_current_version env) st.
Proof.
  unfold firstrun, until_tutorial. unfold_monad.
  destruct (Version.__init__ st) as [[[]|] s1]; [| done].
  destruct (distinguish_initial_install s1) as [[[]|] s2]; [| done].
  destruct (migrations s2) as [[[]|] s3]; [| done].
  by destruct (tutorial_guard s3) as [[[]|] s4].
Qed.

Lemma until_tutorial_split st :
  until_tutorial st = (before_tutorial ;; tutorial_guard) st.
Proof.
  unfold before_tutorial, until_tutorial. unfold_monad.
  destruct (Version.__init__ st) as [[[]|] s1]; [| done].
  destruct (distinguish_initial_install s1) as [[[]|] s2]; [| done].
  by destruct (migrations s2) as [[[]|] s3].
Qed.

Lemma before_tutorial_split st :
  before_tutorial st = (until_distinguish ;; migrations) st.
Proof.
  unfold before_tutorial, until_distinguish. unfold_monad.
  destruct (Version.__init__ st) as [[[]|] s1]; [| done].
  by destruct (distinguish_initial_install s1) as [[[]|] s2].
Qed.

(** The migrations leave [version], the dialogs and the stored version
    alone. *)
Lemma change_resize_globals st :
  version (exec change_resize_image_preserve_ratio st) = version st ∧
  dialogs (exec change_resize_image_preserve_ratio st) = dialogs st.
Proof.
  unfold exec, change_resize_image_preserve_ratio. run.
  destruct (ConfigManager.config (conf st) !! "resize_image_preserve_ratio")
    as [v|]; [| done].
  by destruct v as [| [] | | | | |].
Qed.

Lemma change_special_formatting_globals st :
  version (exec change_special_formatting st) = version st ∧
  dialogs (exec change_special_formatting st) = dialogs st.
Proof.
  unfold exec. rewrite change_special_formatting_run.
  destruct (ConfigManager.config (conf st) !! "z_special_formatting")
    as [z|]; [| done].
  destruct (iterate z) as [keys|]; [| done].
  by destruct (loop_writes z keys) as [ws [e|]].
Qed.

Lemma remove_undo_globals st :
  version (exec remove_undo st) = version st ∧
  dialogs (exec remove_undo st) = dialogs st.
Proof.
  unfold exec. rewrite remove_undo_run.
  by destruct (ConfigManager.config (conf st) !! "undo").
Qed.

Lemma exec_seq {A B} (m : M A) (k : M B) st :
  exec (m ;; k) st = exec k (exec m st) ∨ exec (m ;; k) st = exec m st.
Proof.
  rewrite exec_bind. unfold exec.
  destruct (m st) as [[a|e] st']; [by left | by right].
Qed.

Lemma migrations_globals st :
  version (exec migrations st) = version st ∧
  dialogs (exec migrations st) = dialogs st ∧
  ConfigManager.config (conf (exec migrations st)) !! "version.major"
  = ConfigManager.config (conf st) !! "version.major" ∧
  ConfigManager.config (conf (exec migrations st)) !! "version.minor"
  = ConfigManager.config (conf st) !! "version.minor".
Proof.
  assert (Hkeep : ∀ s : State,
            let P s' := version s' = version st ∧ dialogs s' = dialogs st ∧
              ConfigManager.config (conf s') !! "version.major"
              = ConfigManager.config (conf st) !! "version.major" ∧
              ConfigManager.config (conf s') !! "version.minor"
              = ConfigManager.config (conf st) !! "version.minor" in
            P s → P (exec change_resize_image_preserve_ratio s) ∧
                  P (exec change_special_formatting s) ∧
                  P (exec remove_undo s)).
  { intros s P (Hv & Hd & HM & Hm). subst P. cbv beta.
    destruct (change_resize_globals s) as [-> ->].
    destruct (change_special_formatting_globals s) as [-> ->].
    destruct (remove_undo_globals s) as [-> ->].
    rewrite !change_resize_frame, !change_special_formatting_frame,
      !remove_undo_frame by done.
    done. }
  assert (H0 : version st = version st ∧ dialogs st = dialogs st ∧
    ConfigManager.config (conf st) !! "version.major"
    = ConfigManager.config (conf st) !! "version.major" ∧
    ConfigManager.config (conf st) !! "version.minor"
    = ConfigManager.config (conf st) !! "version.minor") by done.
  unfold migrations.
  destruct (Hkeep st H0) as (H1 & _ & _).
  destruct (exec_seq change_resize_image_preserve_ratio
              (change_special_formatting ;; remove_undo) st) as [-> | ->];
    [| exact H1].
  destruct (Hkeep _ H1) as (_ & H2 & _).
  destruct (exec_seq change_special_formatting remove_undo
              (exec change_resize_image_preserve_ratio st)) as [-> | ->];
    [| exact H2].
  by destruct (Hkeep _ H2) as (_ & _ & H3).
Qed.

Lemma tutorial_guard_run st :
  tutorial_guard st =
    (Ok tt,
     if eq_int (major (version st)) (-1) && eq_int (minor (version st)) (-1)
     then mkState (conf st) (version st) (dialogs st ++ [tutorial_dialog])
     else st).
Proof.
  unfold tutorial_guard.
  rewrite (bind_Ok _ _ _ _ _ (version_eq_first_install st)).
  by destruct (_ && _).
Qed.

Lemma list_index_lookup_0 {A} (l : list A) a :
  list_index l 0 = Ok a → l !! 0%nat = Some a.
Proof.
  destruct l as [| x l]; [by rewrite list_index_nil |].
  rewrite list_index_0. by intros [= ->].
Qed.

Lemma list_index_lookup_1 {A} (l : list A) a :
  list_index l 1 = Ok a → l !! 1%nat = Some a.
Proof.
  destruct l as [| x [| y l]]; [by rewrite list_index_nil | done |].
  rewrite list_index_1. by intros [= ->].
Qed.

(** The final step: what it stores when it returns. *)
Lemma save_current_version_returns env st st' :
  save_current_version env st = (Ok tt, st') →
  ∃ s sM sN zM zN,
    version_string env = VStr s ∧
    split_dot s !! 0%nat = Some sM ∧ split_dot s !! 1%nat = Some sN ∧
    parse_int sM = Some zM ∧ parse_int sN = Some zN ∧
    let c := <["version.minor" := VInt zN]>
               (<["version.major" := VInt zM]> (ConfigManager.config (conf st))) in
    st' = mkState (ConfigManager.mk c c) (version st) (dialogs st).
Proof.
  unfold save_current_version, int_of_str. run.
  destruct (version_string env) as [| | | | s | |]; try done. cbn [split].
  destruct (list_index (split_dot s) 0) as [sM|] eqn:H0; [| done].
  destruct (parse_int sM) as [zM|] eqn:PM; [| done].
  destruct (list_index (split_dot s) 1) as [sN|] eqn:H1; [| done].
  destruct (parse_int sN) as [zN|] eqn:PN; [| done].
  intros [= <-]. exists s, sM, sN, zM, zN.
  repeat split; try done.
  - by apply list_index_lookup_0.
  - by apply list_index_lookup_1.
Qed.

(** The final step touches the two version keys and the saved copy only. *)
Lemma save_current_version_frame env st :
  dialogs (exec (save_current_version env) st) = dialogs st ∧
  version (exec (save_current_version env) st) = version st ∧
  delete "version.major"
    (delete "version.minor"
       (ConfigManager.config (conf (exec (save_current_version env) st))))
  = delete "version.major"
      (delete "version.minor" (ConfigManager.config (conf st))).
Proof.
  unfold exec, save_current_version, int_of_str. run.
  destruct (split (version_string env)) as [p|]; [| done]. cbn.
  destruct (list_index p 0) as [sM|]; [| done]. cbn.
  destruct (parse_int sM) as [zM|]; [| done]. cbn.
  destruct (list_index p 1) as [sN|]; cbn.
  2: { repeat split. apply map_eq. intros k.
       destruct (decide (k = "version.major")) as [-> | ?];
         [by rewrite !lookup_delete_eq |].
       rewrite !(lookup_delete_ne _ "version.major") by done.
       destruct (decide (k = "version.minor")) as [-> | ?];
         [by rewrite !lookup_delete_eq |].
       rewrite !(lookup_delete_ne _ "version.minor") by done.
       by rewrite lookup_insert_ne. }
  destruct (parse_int sN) as [zN|]; cbn.
  all: repeat split; apply map_eq; intros k;
    (destruct (decide (k = "version.major")) as [-> | ?];
       [by rewrite !lookup_delete_eq |]);
    rewrite !(lookup_delete_ne _ "version.major") by done;
    (destruct (decide (k = "version.minor")) as [-> | ?];
       [by rewrite !lookup_delete_eq |]);
    rewrite !(lookup_delete_ne _ "version.minor") by done;
    by rewrite ?lookup_insert_ne.
Qed.

(** The behaviour of a run is that of the module up to the tutorial guard,
    whatever the environment holds. *)
Lemma one_time_behaviour_until_tutorial env c :
  one_time_behaviour env c =
    let st := exec until_tutorial (boot c) in
    (dialogs st, version st,
     delete "version.major"
       (delete "version.minor" (ConfigManager.config (conf st)))).
Proof.
  unfold one_time_behaviour. cbv zeta.
  assert (E : exec (firstrun env) (boot c)
              = exec (until_tutorial ;; save_current_version env) (boot c))
    by (unfold exec; by rewrite firstrun_split).
  rewrite E.
  destruct (exec_seq until_tutorial (save_current_version env) (boot c))
    as [-> | ->]; [| done].
  by destruct (save_current_version_frame env (exec until_tutorial (boot c)))
    as (-> & -> & ->).
Qed.

(** C3 (amended).  No branch of the routine depends on the current add-on
    version: for any two environments, that is any two add-on versions,
    a run from the same stored configuration shows the same dialogs,
    decides on the same [version] object and leaves the same
    configuration apart from the two keys in which the add-on version is
    recorded at the end. *)
Theorem behaviour_independent_of_addon_version (env1 env2 : Env)
    (c : ConfigManager.t) :
  one_time_behaviour env1 c = one_time_behaviour env2 c.
Proof. by rewrite !one_time_behaviour_until_tutorial. Qed.

(** C3 (as stated, refuted).  There is no stored configuration and pair of
    add-on versions on which the one-time behaviour of the routine
    differs: nothing is decided by comparing the stored version with the
    current add-on version. *)
Lemma no_branch_on_addon_version :
  ¬ ∃ (c : ConfigManager.t) (env1 env2 : Env),
      one_time_behaviour env1 c ≠ one_time_behaviour env2 c.
Proof.
  intros (c & env1 & env2 & H). apply H.
  by rewrite !one_time_behaviour_until_tutorial.
Qed.

(** Where the add-on version comes from. *)
Lemma version_string_source env :
  (∀ e, EFDRC_VERSION env = Some e → e ≠ "" → version_string env = VStr e) ∧
  (EFDRC_VERSION env = None ∨ EFDRC_VERSION env = Some "" →
   version_string env =
     default (VStr "6.23") (dict_lookup (meta env) "human_version")).
Proof.
  unfold version_string. split.
  - intros e -> He. destruct (String.eqb_spec e ""); done.
  - by intros [-> | ->].
Qed.

(** C4.  When the module finishes, "version.major" and "version.minor"
    hold the integers the first two dot-separated components of the
    add-on version string convert to, and the stored configuration equals
    the one in memory.  The version string is [EFDRC_VERSION] when that is
    set and not empty, and otherwise the "human_version" of the add-on's
    meta data, "6.23" when there is none. *)
Theorem current_version_recorded (env : Env) (c : ConfigManager.t) (st' : State) :
  firstrun env (boot c) = (Ok tt, st') →
  ∃ s sM sN zM zN,
    version_string env = VStr s ∧
    (∀ e, EFDRC_VERSION env = Some e → e ≠ "" → s = e) ∧
    (EFDRC_VERSION env = None ∨ EFDRC_VERSION env = Some "" →
     VStr s = default (VStr "6.23") (dict_lookup (meta env) "human_version")) ∧
    split_dot s !! 0%nat = Some sM ∧ split_dot s !! 1%nat = Some sN ∧
    parse_int sM = Some zM ∧ parse_int sN = Some zN ∧
    ConfigManager.config (conf st') !! "version.major" = Some (VInt zM) ∧
    ConfigManager.config (conf st') !! "version.minor" = Some (VInt zN) ∧
    ConfigManager.disk (conf st') = ConfigManager.config (conf st').
Proof.
  rewrite firstrun_split. intros H.
  apply bind_inv in H as ([] & st1 & _ & H).
  apply save_current_version_returns in H
    as (s & sM & sN & zM & zN & Hs & H0 & H1 & PM & PN & ->).
  destruct (version_string_source env) as [Henv Hmeta].
  exists s, sM, sN, zM, zN. split; [done |].
  split. { intros e He Hne. specialize (Henv e He Hne). congruence. }
  split. { intros He. specialize (Hmeta He). congruence. }
  repeat split; try done; cbn.
  - by rewrite lookup_insert_ne, lookup_insert_eq.
  - by rewrite lookup_insert_eq.
Qed.

Lemma current_version_recorded_witness :
  let env := mkEnv None [("human_version", VStr "6.24")] in
  let c := cfg [("version.major", VInt 6); ("version.minor", VInt 3);
                ("resize_image_preserve_ratio", VInt 1)] in
  firstrun env (boot c) = (Ok tt, exec (firstrun env) (boot c)) ∧
  ConfigManager.config (conf (exec (firstrun env) (boot c))) !! "version.minor"
  = Some (VInt 24) ∧
  ∃ s sM sN zM zN,
    version_string env = VStr s ∧
    split_dot s !! 0%nat = Some sM ∧ split_dot s !! 1%nat = Some sN ∧
    parse_int sM = Some zM ∧ parse_int sN = Some zN ∧
    ConfigManager.config (conf (exec (firstrun env) (boot c))) !! "version.major"
    = Some (VInt zM).
Proof.
  intros env c.
  assert (H : firstrun env (boot c) = (Ok tt, exec (firstrun env) (boot c)))
    by (vm_compute; reflexivity).
  split; [exact H |]. split; [vm_compute; reflexivity |].
  destruct (current_version_recorded env c _ H)
    as (s & sM & sN & zM & zN & Hs & _ & _ & H0 & H1 & PM & PN & HM & _).
  exists s, sM, sN, zM, zN. auto 10.
Defined.

(** ** The tutorial *)

Lemma new_Version_boot c st :
  Version.__init__ (boot c) = (Ok tt, st) → new_Version c = Ok (version st).
Proof. unfold new_Version. by intros ->. Qed.

Lemma new_Version_rewritten st :
  new_Version (conf (rewritten st)) = Ok (version (rewritten st)).
Proof.
  unfold new_Version, Version.__init__.
  rewrite (load_not_str _ (VInt 0) (VInt 0)); try done; cbn.
  - by rewrite lookup_insert_ne, lookup_insert_eq.
  - by rewrite lookup_insert_eq.
Qed.

(** After line 62 the [version] object is the one a fresh [Version()]
    would be on the stored configuration, and no dialog is shown. *)
Lemma until_distinguish_returns c st :
  until_distinguish (boot c) = (Ok tt, st) →
  new_Version (conf st) = Ok (version st) ∧ dialogs st = [].
Proof.
  unfold until_distinguish. intros H.
  apply bind_inv in H as ([] & s1 & Hinit & H).
  pose proof (load_frame (boot c)) as [Hc Hd].
  unfold exec, Version.__init__ in *. rewrite Hinit in Hc, Hd. cbn in Hc, Hd.
  rewrite distinguish_run in H.
  destruct (_ && _); injection H as <-.
  - split; [apply new_Version_rewritten | done].
  - split; [| done]. rewrite Hc. by apply new_Version_boot.
Qed.

(** C1 (amended).  When the module reaches line 200, the tutorial dialog is shown
    if and only if a [Version] built from the configuration that
    [distinguish_initial_install] has left compares equal to "-1.-1";
    nothing else is ever shown.  When the stored major is not a string,
    that comparison is: stored major [== -1] and stored minor [== -1]. *)
Theorem tutorial_iff_first_install (env : Env) (c : ConfigManager.t) :
  result before_tutorial (boot c) = Ok tt →
  let stored := conf (exec until_distinguish (boot c)) in
  let final := exec (firstrun env) (boot c) in
  let first_install :=
    ∃ v, new_Version stored = Ok v ∧ Version.__eq__ v "-1.-1" = Ok true in
  (tutorial_dialog ∈ dialogs final ↔ first_install) ∧
  (dialogs final = [tutorial_dialog] ∨ dialogs final = []) ∧
  (∀ vM vN,
     ConfigManager.config stored !! "version.major" = Some vM →
     ConfigManager.config stored !! "version.minor" = Some vN →
     is_str vM = false →
     (first_install ↔ eq_int vM (-1) = true ∧ eq_int vN (-1) = true)).
Proof.
  intros Hres stored final first_install.
  (* the run up to the guard *)
  unfold result in Hres. rewrite before_tutorial_split in Hres.
  destruct (until_distinguish (boot c)) as [[[]|e] sb] eqn:Hb.
  2: { unfold mbind, M_bind in Hres. by rewrite Hb in Hres. }
  rewrite (bind_Ok _ _ _ _ _ Hb) in Hres.
  destruct (migrations sb) as [r sc] eqn:Hm. cbn in Hres. subst r.
  destruct (until_distinguish_returns c sb Hb) as [Hnew Hdlg].
  assert (Hstored : stored = conf sb) by (unfold stored, exec; by rewrite Hb).
  destruct (migrations_globals sb) as (Hv & Hd & _).
  unfold exec in Hv, Hd. rewrite Hm in Hv, Hd. cbn in Hv, Hd.
  (* the guard and the final step *)
  assert (Hfinal : dialogs final =
            if eq_int (major (version sb)) (-1) && eq_int (minor (version sb)) (-1)
            then [tutorial_dialog] else []).
  { unfold final.
    assert (E : exec (firstrun env) (boot c)
                = exec (until_tutorial ;; save_current_version env) (boot c))
      by (unfold exec; by rewrite firstrun_split).
    rewrite E.
    assert (Hu : until_tutorial (boot c) = tutorial_guard sc).
    { rewrite until_tutorial_split.
      apply bind_Ok with (a := tt). rewrite before_tutorial_split.
      by rewrite (bind_Ok _ _ _ _ _ Hb). }
    rewrite exec_bind, Hu, tutorial_guard_run.
    destruct (save_current_version_frame env
                (if eq_int (major (version sc)) (-1) && eq_int (minor (version sc)) (-1)
                 then mkState (conf sc) (version sc) (dialogs sc ++ [tutorial_dialog])
                 else sc)) as (-> & _ & _).
    rewrite Hv. destruct (_ && _); cbn; by rewrite Hd, Hdlg. }
  assert (Hfirst : first_install ↔
            eq_int (major (version sb)) (-1) && eq_int (minor (version sb)) (-1)
            = true).
  { unfold first_install. rewrite Hstored, Hnew. split.
    - intros (v & [= <-] & Heq). rewrite eq_first_install in Heq.
      by injection Heq.
    - intros Heq. exists (version sb). split; [done |].
      by rewrite eq_first_install, Heq. }
  split; [| split].
  - rewrite Hfirst, Hfinal. destruct (_ && _).
    + split; [done | intros _; by left].
    + split; [by intros ?%elem_of_nil | done].
  - rewrite Hfinal. destruct (_ && _); auto.
  - intros vM vN HM HN Hstr. rewrite Hfirst, andb_true_iff.
    rewrite Hstored in HM, HN.
    unfold new_Version, Version.__init__, Version.load, int_of_str in Hnew.
    run. rewrite HM in Hnew. cbn in Hnew. rewrite HN in Hnew. cbn in Hnew.
    destruct vM; try done; destruct vN; cbn in Hnew;
      try (injection Hnew as <-; cbn; tauto);
      (destruct (parse_int _); [| done]); injection Hnew as <-; cbn;
      split; intros [? ?]; done.
Qed.

Lemma tutorial_iff_first_install_witness :
  let env := mkEnv (Some "6.24") [] in
  let c := cfg [("version.major", VInt (-1)); ("version.minor", VInt (-1));
                ("resize_image_preserve_ratio", VInt 1)] in
  result before_tutorial (boot c) = Ok tt ∧
  tutorial_dialog ∈ dialogs (exec (firstrun env) (boot c)).
Proof.
  intros env c.
  assert (H : result before_tutorial (boot c) = Ok tt)
    by (vm_compute; reflexivity).
  split; [exact H |].
  apply (proj1 (tutorial_iff_first_install env c H)).
  exists (mkVersion (VInt (-1)) (VInt (-1))).
  split; vm_compute; reflexivity.
Defined.

(** C1 (as stated, refuted).  Two stored configurations on which "shown
    exactly when the stored major [== -1] and the stored minor [== -1]"
    fails.  With the major stored as the string "-1" the run ends with
    the tutorial shown, though a string equals no integer.  With the
    first-install version -1.-1 but no "resize_image_preserve_ratio", the
    stored version compares equal to "-1.-1" in either reading, the run
    raises [KeyError] at line 69 and nothing is shown. *)
Lemma tutorial_not_iff_stored_version :
  (let c := cfg [("version.major", VStr "-1"); ("version.minor", VInt (-1));
                 ("resize_image_preserve_ratio", VInt 1)] in
   let env := mkEnv None [] in
   result (firstrun env) (boot c) = Ok tt ∧
   dialogs (exec (firstrun env) (boot c)) = [tutorial_dialog] ∧
   stored_first_install (conf (exec until_distinguish (boot c))) = false) ∧
  (let c := cfg [("version.major", VInt (-1)); ("version.minor", VInt (-1))] in
   let env := mkEnv None [] in
   result (firstrun env) (boot c) = Raise KeyError ∧
   dialogs (exec (firstrun env) (boot c)) = [] ∧
   stored_first_install (conf (exec until_distinguish (boot c))) = true ∧
   ∃ v, new_Version (conf (exec until_distinguish (boot c))) = Ok v ∧
        Version.__eq__ v "-1.-1" = Ok true).
Proof.
  split.
  - vm_compute. done.
  - cbv zeta. split; [vm_compute; reflexivity |].
    split; [vm_compute; reflexivity |]. split; [vm_compute; reflexivity |].
    exists (mkVersion (VInt (-1)) (VInt (-1))). split; vm_compute; reflexivity.
Qed.

(** ** The module returns on a well-formed configuration *)

Lemma result_seq_Ok {B} (m : M unit) (k : M B) st b :
  result m st = Ok tt → result k (exec m st) = Ok b →
  result (m ;; k) st = Ok b.
Proof.
  unfold result, exec, mbind, M_bind.
  destruct (m st) as [[[]|e] st']; [done | discriminate].
Qed.

Lemma change_resize_returns st v :
  ConfigManager.config (conf st) !! "resize_image_preserve_ratio" = Some v →
  result change_resize_image_preserve_ratio st = Ok tt.
Proof.
  intros Hv. unfold result, change_resize_image_preserve_ratio. run.
  rewrite Hv. by destruct v as [| [] | | | | |].
Qed.

Lemma remove_undo_returns st : result remove_undo st = Ok tt.
Proof.
  unfold result. rewrite remove_undo_run.
  by destruct (ConfigManager.config (conf st) !! "undo").
Qed.

Lemma distinguish_returns st : result distinguish_initial_install st = Ok tt.
Proof. unfold result. rewrite distinguish_run. by destruct (_ && _). Qed.

Lemma tutorial_guard_returns st : result tutorial_guard st = Ok tt.
Proof. unfold result. by rewrite tutorial_guard_run. Qed.

Lemma list_index_of_lookup_0 {A} (l : list A) a :
  l !! 0%nat = Some a → list_index l 0 = Ok a.
Proof. destruct l; [done |]. intros [= ->]. apply list_index_0. Qed.

Lemma list_index_of_lookup_1 {A} (l : list A) a :
  l !! 1%nat = Some a → list_index l 1 = Ok a.
Proof.
  destruct l as [| x [| y l]]; [done | done |]. intros [= ->].
  apply list_index_1.
Qed.

Lemma save_current_version_returns_on env st s sM sN zM zN :
  version_string env = VStr s →
  split_dot s !! 0%nat = Some sM → split_dot s !! 1%nat = Some sN →
  parse_int sM = Some zM → parse_int sN = Some zN →
  result (save_current_version env) st = Ok tt.
Proof.
  intros Hs H0 H1 PM PN. unfold result, save_current_version, int_of_str. run.
  rewrite Hs. cbn [split].
  rewrite (list_index_of_lookup_0 _ _ H0), PM.
  by rewrite (list_index_of_lookup_1 _ _ H1), PN.
Qed.

(** The module runs to its end when the stored version is not held as
    strings, the resize setting is present, there is no
    "z_special_formatting" left to flatten and the add-on version string
    has two components that convert. *)
Lemma firstrun_returns env c vM vN r s sM sN zM zN :
  ConfigManager.config c !! "version.major" = Some vM →
  ConfigManager.config c !! "version.minor" = Some vN →
  is_str vM = false → is_str vN = false →
  ConfigManager.config c !! "resize_image_preserve_ratio" = Some r →
  ConfigManager.config c !! "z_special_formatting" = None →
  version_string env = VStr s →
  split_dot s !! 0%nat = Some sM → split_dot s !! 1%nat = Some sN →
  parse_int sM = Some zM → parse_int sN = Some zN →
  result (firstrun env) (boot c) = Ok tt.
Proof.
  intros HM HN SM SN Hr Hz Hs H0 H1 PM PN. unfold firstrun.
  pose proof (load_not_str (boot c) vM vN HM HN SM SN) as Hload.
  apply result_seq_Ok; [unfold result, Version.__init__; by rewrite Hload |].
  set (s1 := exec Version.__init__ (boot c)).
  assert (Hc1 : conf s1 = c)
    by (unfold s1, exec, Version.__init__; by rewrite Hload).
  apply result_seq_Ok; [apply distinguish_returns |].
  set (s2 := exec distinguish_initial_install s1).
  assert (Hr2 : ConfigManager.config (conf s2) !! "resize_image_preserve_ratio"
                = Some r).
  { unfold s2. rewrite distinguish_frame by done. by rewrite Hc1. }
  assert (Hz2 : ConfigManager.config (conf s2) !! "z_special_formatting" = None).
  { unfold s2. rewrite distinguish_frame by done. by rewrite Hc1. }
  apply result_seq_Ok.
  - unfold migrations.
    apply result_seq_Ok; [by eapply change_resize_returns |].
    apply result_seq_Ok; [| apply remove_undo_returns].
    unfold result. rewrite change_special_formatting_run.
    by rewrite change_resize_frame, Hz2.
  - apply result_seq_Ok; [apply tutorial_guard_returns |].
    by eapply save_current_version_returns_on.
Qed.

(** ** Examples *)

(** A first install: the tutorial is shown and the version recorded. *)
Example first_install_run :
  let c := cfg [("version.major", VInt (-1)); ("version.minor", VInt (-1));
                ("resize_image_preserve_ratio", VInt 1)] in
  let st := exec (firstrun (mkEnv (Some "6.24") [])) (boot c) in
  dialogs st = [tutorial_dialog] ∧
  conf st = cfg [("version.major", VInt 6); ("version.minor", VInt 24);
                 ("resize_image_preserve_ratio", VInt 1)].
Proof. vm_compute. done. Qed.

(** An upgrade from before 6.0 whose user never edited the configuration:
    the stored version is -1.-1 but "undo" is set; no tutorial. *)
Example old_install_run :
  let c := cfg [("version.major", VInt (-1)); ("version.minor", VInt (-1));
                ("undo", VBool true);
                ("resize_image_preserve_ratio", VBool true);
                ("z_special_formatting",
                 VDict [("highlight", VList [VBool true; VStr "#ff0"]);
                        ("bold", VBool true)])] in
  let st := exec (firstrun (mkEnv None [])) (boot c) in
  dialogs st = [] ∧
  conf st = cfg [("version.major", VInt 6); ("version.minor", VInt 23);
                 ("resize_image_preserve_ratio", VInt 1);
                 ("special_formatting.highlight.enabled", VBool true);
                 ("special_formatting.highlight.arg",
                  VDict [("type", VStr "color"); ("value", VStr "#ff0")]);
                 ("special_formatting.bold.enabled", VBool true)].
Proof. vm_compute. done. Qed.

(** [and] is lazy: a one-component string raises [IndexError] only when
    the major matches. *)
Example eq_one_component :
  Version.__eq__ (mkVersion (VInt 6) (VInt 3)) "5" = Ok false ∧
  Version.__eq__ (mkVersion (VInt 6) (VInt 3)) "6" = Raise IndexError ∧
  Version.__eq__ (mkVersion (VInt 6) (VInt 3)) "6.x" = Raise ValueError.
Proof. done. Qed.

(** A list under "z_special_formatting" is iterated by element and
    subscripted by it. *)
Example special_formatting_list :
  let c := cfg [("z_special_formatting", VList [VInt 0])] in
  change_special_formatting (boot c)
  = (Ok tt, boot (cfg [("special_formatting.0.enabled", VInt 0)])).
Proof. vm_compute. done. Qed.

(** A list value with one element raises after the earlier keys have been
    flattened; the state keeps those assignments and the key. *)
Example special_formatting_short_list :
  let c := cfg [("z_special_formatting",
                 VDict [("bold", VBool true); ("fontcolor", VList [VBool true])])] in
  result change_special_formatting (boot c) = Raise IndexError ∧
  ConfigManager.config (conf (exec change_special_formatting (boot c)))
    !! "special_formatting.bold.enabled" = Some (VBool true) ∧
  is_Some (ConfigManager.config (conf (exec change_special_formatting (boot c)))
             !! "z_special_formatting").
Proof. vm_compute. eauto. Qed.

(** * Further properties of the code *)

(** ** Comparisons on arbitrary attributes *)

Lemma ints_of_Raise l s :
  s ∈ l → parse_int s = None → ints_of l = Raise ValueError.
Proof.
  induction l as [| x l IH]; [by intros ?%elem_of_nil |].
  intros [-> | Hin]%elem_of_cons Hs; cbn [ints_of]; unfold int_of_str.
  - by rewrite Hs.
  - destruct (parse_int x); [| done]. by rewrite (IH Hin Hs).
Qed.

Lemma ints_of_only_ValueError l e : ints_of l = Raise e → e = ValueError.
Proof.
  induction l as [| x l IH]; [done |]. cbn [ints_of]. unfold int_of_str.
  destruct (parse_int x); [| by intros [= <-]].
  destruct (ints_of l); [done |]. intros [= <-]. by apply IH.
Qed.

(** X1.  On a version string whose components all convert and are at
    least two, [__eq__] returns for every pair of attribute values, with
    [self.major == m and self.minor == n] for the first two components [m]
    and [n]; further components play no part. *)
Theorem eq_on_any_attributes (self : Version) (other : string)
    (m n : Z) (rest : list Z) :
  Version.ver other = Ok (m :: n :: rest) →
  Version.__eq__ self other =
    Ok (eq_int (major self) m && eq_int (minor self) n).
Proof.
  intros H. unfold Version.__eq__. rewrite H. cbn [mbind outcome_bind].
  rewrite (list_index_0 m (n :: rest)). cbn [mbind outcome_bind].
  destruct (eq_int (major self) m); [| done].
  by rewrite (list_index_1 m n rest).
Qed.

Lemma eq_on_any_attributes_witness :
  Version.ver "6.23.1" = Ok [6; 23; 1] ∧
  Version.__eq__ (mkVersion (VStr "6") VNone) "6.23.1" = Ok false ∧
  Version.__eq__ (mkVersion (VBool true) (VInt 0)) "1.0.7" = Ok true.
Proof.
  split; [reflexivity |]. split.
  - exact (eq_on_any_attributes (mkVersion (VStr "6") VNone) "6.23.1"
             6 23 [1] eq_refl).
  - exact (eq_on_any_attributes (mkVersion (VBool true) (VInt 0)) "1.0.7"
             1 0 [7] eq_refl).
Defined.

(** X2.  When [self.major] is not a number ([None], a string, a list or a
    dict), the four ordering comparisons raise [TypeError] on every
    version string whose components convert. *)
Theorem ordering_raises_on_non_numeric_major (self : Version) (other : string)
    (m : Z) (rest : list Z) :
  numeric (major self) = false →
  Version.ver other = Ok (m :: rest) →
  Version.__gt__ self other = Raise TypeError ∧
  Version.__lt__ self other = Raise TypeError ∧
  Version.__ge__ self other = Raise TypeError ∧
  Version.__le__ self other = Raise TypeError.
Proof.
  intros Hn H.
  assert (Hg : Version.__gt__ self other = Raise TypeError).
  { unfold Version.__gt__. rewrite H. cbn [mbind outcome_bind].
    rewrite (list_index_0 m rest). cbn [mbind outcome_bind].
    by destruct (major self). }
  assert (Hl : Version.__lt__ self other = Raise TypeError).
  { unfold Version.__lt__. rewrite H. cbn [mbind outcome_bind].
    rewrite (list_index_0 m rest). cbn [mbind outcome_bind].
    by destruct (major self). }
  assert (He : Version.__eq__ self other = Ok false).
  { unfold Version.__eq__. rewrite H. cbn [mbind outcome_bind].
    rewrite (list_index_0 m rest). cbn [mbind outcome_bind].
    by destruct (major self). }
  unfold Version.__ge__, Version.__le__. rewrite He, Hg, Hl. done.
Qed.

Lemma ordering_raises_on_non_numeric_major_witness :
  numeric (VStr "6") = false ∧ Version.ver "6.0" = Ok [6; 0] ∧
  Version.__gt__ (mkVersion (VStr "6") (VInt 3)) "6.0" = Raise TypeError ∧
  Version.__le__ (mkVersion (VStr "6") (VInt 3)) "6.0" = Raise TypeError.
Proof.
  split; [reflexivity |]. split; [reflexivity |].
  destruct (ordering_raises_on_non_numeric_major
              (mkVersion (VStr "6") (VInt 3)) "6.0" 6 [0] eq_refl eq_refl)
    as (Hg & _ & _ & Hle).
  by split.
Defined.

(** X3.  A version string with a component that does not convert makes
    each of the five comparisons raise [ValueError], whatever the
    attributes hold and wherever the component stands. *)
Theorem comparisons_raise_on_bad_component (self : Version) (other s : string) :
  s ∈ split_dot other → parse_int s = None →
  Version.__eq__ self other = Raise ValueError ∧
  Version.__gt__ self other = Raise ValueError ∧
  Version.__lt__ self other = Raise ValueError ∧
  Version.__ge__ self other = Raise ValueError ∧
  Version.__le__ self other = Raise ValueError.
Proof.
  intros Hin Hs.
  assert (H : Version.ver other = Raise ValueError)
    by (unfold Version.ver; by eapply ints_of_Raise).
  unfold Version.__ge__, Version.__le__, Version.__eq__, Version.__gt__,
    Version.__lt__.
  by rewrite H.
Qed.

Lemma comparisons_raise_on_bad_component_witness :
  "beta" ∈ split_dot "6.23.beta" ∧ parse_int "beta" = None ∧
  Version.__eq__ (mkVersion (VInt 5) (VInt 0)) "6.23.beta" = Raise ValueError ∧
  Version.__ge__ (mkVersion (VInt 5) (VInt 0)) "6.23.beta" = Raise ValueError.
Proof.
  assert (Hin : "beta" ∈ split_dot "6.23.beta")
    by (apply list_elem_of_In; vm_compute; tauto).
  assert (Hs : parse_int "beta" = None) by reflexivity.
  destruct (comparisons_raise_on_bad_component
              (mkVersion (VInt 5) (VInt 0)) "6.23.beta" "beta" Hin Hs)
    as (He & _ & _ & Hge & _).
  auto.
Defined.

(** X4.  On a version string of one component [m], with integer
    attributes: a comparison returns when the majors decide it and raises
    [IndexError] when they tie, since [ver[1]] is then evaluated. *)
Theorem comparisons_on_one_component (a b : Z) (other : string) (m : Z) :
  Version.ver other = Ok [m] →
  let self := mkVersion (VInt a) (VInt b) in
  Version.__eq__ self other = (if a =? m then Raise IndexError else Ok false) ∧
  Version.__gt__ self other =
    (if m <? a then Ok true else if a =? m then Raise IndexError else Ok false) ∧
  Version.__lt__ self other =
    (if a <? m then Ok true else if a =? m then Raise IndexError else Ok false).
Proof.
  intros H self. subst self.
  unfold Version.__eq__, Version.__gt__, Version.__lt__. rewrite H.
  cbn [mbind outcome_bind]. rewrite (list_index_0 m []).
  cbn -[list_index Z.ltb Z.eqb].
  split; [by destruct (a =? m) |].
  split.
  - destruct (m <? a); [done |]. by destruct (a =? m).
  - destruct (a <? m); [done |]. by destruct (a =? m).
Qed.

Lemma comparisons_on_one_component_witness :
  Version.ver "6" = Ok [6] ∧
  Version.__eq__ (mkVersion (VInt 6) (VInt 3)) "6" = Raise IndexError ∧
  Version.__gt__ (mkVersion (VInt 7) (VInt 3)) "6" = Ok true.
Proof.
  split; [reflexivity |].
  destruct (comparisons_on_one_component 6 3 "6" 6 eq_refl) as (He & _ & _).
  destruct (comparisons_on_one_component 7 3 "6" 6 eq_refl) as (_ & Hg & _).
  split; [exact He | exact Hg].
Defined.

(** ** [Version.load] in general *)

(** [load] with both keys stored, case by case. *)
Lemma load_run st vM vN :
  ConfigManager.config (conf st) !! "version.major" = Some vM →
  ConfigManager.config (conf st) !! "version.minor" = Some vN →
  let leave r m := (r, mkState (conf st) (mkVersion m vN) (dialogs st)) in
  let second (m : value) : outcome unit * State :=
    match vN with
    | VStr sN =>
        match parse_int sN with
        | Some zN => leave (Ok tt) (VInt zN)
        | None => leave (Raise ValueError) m
        end
    | _ => leave (Ok tt) m
    end in
  Version.load st =
    match vM with
    | VStr sM =>
        match parse_int sM with
        | Some zM => second (VInt zM)
        | None => leave (Raise ValueError) vM
        end
    | _ => second vM
    end.
Proof.
  intros HM HN. cbv zeta. unfold Version.load, int_of_str. run.
  rewrite HM; cbn. rewrite HN; cbn.
  destruct vM as [| | | | sM | |]; cbn;
    try (destruct vN as [| | | | sN | |]; cbn; try done;
         by destruct (parse_int sN)).
  destruct (parse_int sM); cbn; [| done].
  destruct vN as [| | | | sN | |]; cbn; try done. by destruct (parse_int sN).
Qed.

(** X5.  With both version keys stored, a [load] that returns leaves in
    [minor] the stored minor as it is; [major] holds the integer of the
    stored minor when that is a string, and otherwise the stored major,
    converted when it is a string. *)
Theorem load_attributes (st : State) (vM vN : value) :
  ConfigManager.config (conf st) !! "version.major" = Some vM →
  ConfigManager.config (conf st) !! "version.minor" = Some vN →
  result Version.load st = Ok tt →
  minor (version (exec Version.load st)) = vN ∧
  (∀ sN, vN = VStr sN →
     ∃ z, parse_int sN = Some z ∧ major (version (exec Version.load st)) = VInt z) ∧
  (is_str vN = false → ∀ sM, vM = VStr sM →
     ∃ z, parse_int sM = Some z ∧ major (version (exec Version.load st)) = VInt z) ∧
  (is_str vN = false → is_str vM = false →
     major (version (exec Version.load st)) = vM).
Proof.
  intros HM HN. unfold result, exec. rewrite (load_run st vM vN HM HN).
  cbv zeta.
  destruct vM as [| | | | sM | |]; try destruct (parse_int sM) eqn:PM;
    destruct vN as [| | | | sN | |]; try destruct (parse_int sN) eqn:PN;
    cbn; try done; intros _;
    repeat split; try done; intros; simplify_eq; eauto.
Qed.

Lemma load_attributes_witness :
  let st := boot (cfg [("version.major", VStr "6"); ("version.minor", VInt 3)]) in
  ConfigManager.config (conf st) !! "version.major" = Some (VStr "6") ∧
  ConfigManager.config (conf st) !! "version.minor" = Some (VInt 3) ∧
  result Version.load st = Ok tt ∧
  minor (version (exec Version.load st)) = VInt 3 ∧
  ∃ z, parse_int "6" = Some z ∧ major (version (exec Version.load st)) = VInt z.
Proof.
  intros st.
  assert (HM : ConfigManager.config (conf st) !! "version.major"
               = Some (VStr "6")) by (vm_compute; reflexivity).
  assert (HN : ConfigManager.config (conf st) !! "version.minor"
               = Some (VInt 3)) by (vm_compute; reflexivity).
  assert (Hr : result Version.load st = Ok tt) by (vm_compute; reflexivity).
  destruct (load_attributes st _ _ HM HN Hr) as (Hmin & _ & Hmaj & _).
  repeat (split; [assumption |]).
  exact (Hmaj eq_refl "6" eq_refl).
Defined.

(** X6.  With both version keys stored, [load] returns exactly when every
    stored value that is a string converts, and raises [ValueError]
    otherwise; in either case the configuration and the dialogs are left
    alone. *)
Theorem load_returns_iff (st : State) (vM vN : value) :
  ConfigManager.config (conf st) !! "version.major" = Some vM →
  ConfigManager.config (conf st) !! "version.minor" = Some vN →
  (result Version.load st = Ok tt ↔
     (∀ s, vM = VStr s → is_Some (parse_int s)) ∧
     (∀ s, vN = VStr s → is_Some (parse_int s))) ∧
  (result Version.load st = Ok tt ∨ result Version.load st = Raise ValueError) ∧
  conf (exec Version.load st) = conf st ∧
  dialogs (exec Version.load st) = dialogs st.
Proof.
  intros HM HN. split; [| split; [| apply load_frame]].
  - unfold result. rewrite (load_run st vM vN HM HN). cbv zeta.
    destruct vM as [| | | | sM | |]; try destruct (parse_int sM) eqn:PM;
      destruct vN as [| | | | sN | |]; try destruct (parse_int sN) eqn:PN;
      cbn;
      (split;
       [ try done; intros _; split; intros; simplify_eq; by eauto
       | try done; intros [H1 H2];
         first [ destruct (H1 _ eq_refl) as [? Hx]; congruence
               | destruct (H2 _ eq_refl) as [? Hx]; congruence ] ]).
  - unfold result. rewrite (load_run st vM vN HM HN). cbv zeta.
    destruct vM as [| | | | sM | |]; try destruct (parse_int sM);
      destruct vN as [| | | | sN | |]; try destruct (parse_int sN);
      cbn; auto.
Qed.

Lemma load_returns_iff_witness :
  let st := boot (cfg [("version.major", VStr "six"); ("version.minor", VInt 3)]) in
  ConfigManager.config (conf st) !! "version.major" = Some (VStr "six") ∧
  ConfigManager.config (conf st) !! "version.minor" = Some (VInt 3) ∧
  result Version.load st ≠ Ok tt ∧
  conf (exec Version.load st) = conf st.
Proof.
  intros st.
  assert (HM : ConfigManager.config (conf st) !! "version.major"
               = Some (VStr "six")) by (vm_compute; reflexivity).
  assert (HN : ConfigManager.config (conf st) !! "version.minor"
               = Some (VInt 3)) by (vm_compute; reflexivity).
  destruct (load_returns_iff st _ _ HM HN) as (Hiff & _ & Hc & _).
  repeat (split; [assumption |]). split; [| exact Hc].
  intros Hr. apply Hiff in Hr as [H1 _].
  destruct (H1 "six" eq_refl) as [z Hz]. vm_compute in Hz. discriminate.
Defined.

(** X7.  When the stored minor is a string, the object a returning [load]
    leaves compares equal to no version string: [minor] is still the
    string, and a string equals no integer. *)
Theorem string_minor_never_equal (st : State) (sN other : string) :
  ConfigManager.config (conf st) !! "version.minor" = Some (VStr sN) →
  result Version.load st = Ok tt →
  Version.__eq__ (version (exec Version.load st)) other ≠ Ok true.
Proof.
  intros HN Hr.
  assert (Hmin : minor (version (exec Version.load st)) = VStr sN).
  { revert Hr. unfold result, exec, Version.load, int_of_str. run.
    destruct (ConfigManager.config (conf st) !! "version.major") as [vM|];
      [| done]; cbn.
    rewrite HN; cbn.
    destruct vM; cbn; try destruct (parse_int _); cbn;
      try destruct (parse_int sN); cbn; done. }
  unfold Version.__eq__.
  destruct (Version.ver other) as [l|]; [| done]. cbn [mbind outcome_bind].
  destruct (list_index l 0) as [v0|]; [| done]. cbn [mbind outcome_bind].
  destruct (eq_int _ v0); [| done].
  destruct (list_index l 1) as [v1|]; [| done]. cbn [mbind outcome_bind].
  rewrite Hmin. done.
Qed.

Lemma string_minor_never_equal_witness :
  let st := boot (cfg [("version.major", VStr "6"); ("version.minor", VStr "23")]) in
  ConfigManager.config (conf st) !! "version.minor" = Some (VStr "23") ∧
  result Version.load st = Ok tt ∧
  Version.__eq__ (version (exec Version.load st)) "6.23" ≠ Ok true.
Proof.
  intros st.
  assert (HN : ConfigManager.config (conf st) !! "version.minor"
               = Some (VStr "23")) by (vm_compute; reflexivity).
  assert (Hr : result Version.load st = Ok tt) by (vm_compute; reflexivity).
  split; [exact HN |]. split; [exact Hr |].
  exact (string_minor_never_equal st "23" "6.23" HN Hr).
Defined.

(** ** The stored copy *)

Lemma change_resize_run st :
  change_resize_image_preserve_ratio st =
    match ConfigManager.config (conf st) !! "resize_image_preserve_ratio" with
    | None => (Raise KeyError, st)
    | Some (VBool b) =>
        (Ok tt,
         saved (with_config
                  (<["resize_image_preserve_ratio" := VInt (if b then 1 else 0)]>) st))
    | Some _ => (Ok tt, st)
    end.
Proof.
  unfold change_resize_image_preserve_ratio. run.
  destruct (ConfigManager.config (conf st) !! "resize_image_preserve_ratio")
    as [v|]; [| done].
  by destruct v as [| [] | | | | |].
Qed.

Lemma save_current_version_disk env st :
  (result (save_current_version env) st = Ok tt ∧
   in_sync (exec (save_current_version env) st)) ∨
  (result (save_current_version env) st ≠ Ok tt ∧
   ConfigManager.disk (conf (exec (save_current_version env) st))
   = ConfigManager.disk (conf st)).
Proof.
  unfold result, exec, in_sync, save_current_version, int_of_str. run.
  destruct (split (version_string env)) as [p|]; cbn; [| by right].
  destruct (list_index p 0) as [sM|]; cbn; [| by right].
  destruct (parse_int sM) as [zM|]; cbn; [| by right].
  destruct (list_index p 1) as [sN|]; cbn; [| by right].
  destruct (parse_int sN) as [zN|]; cbn; [by left | by right].
Qed.

(** X8.  A statement of the module that raises has not written the stored
    configuration: after a failed [load], resize migration,
    [change_special_formatting] or recording of the version, the copy on
    disk is the one from before the call. *)
Theorem failure_leaves_disk (env : Env) (st : State) :
  (result Version.load st ≠ Ok tt →
   ConfigManager.disk (conf (exec Version.load st)) = ConfigManager.disk (conf st)) ∧
  (result change_resize_image_preserve_ratio st ≠ Ok tt →
   ConfigManager.disk (conf (exec change_resize_image_preserve_ratio st))
   = ConfigManager.disk (conf st)) ∧
  (result change_special_formatting st ≠ Ok tt →
   ConfigManager.disk (conf (exec change_special_formatting st))
   = ConfigManager.disk (conf st)) ∧
  (result (save_current_version env) st ≠ Ok tt →
   ConfigManager.disk (conf (exec (save_current_version env) st))
   = ConfigManager.disk (conf st)).
Proof.
  split; [| split; [| split]].
  - intros _. by destruct (load_frame st) as [-> _].
  - unfold result, exec. rewrite change_resize_run.
    destruct (ConfigManager.config (conf st) !! "resize_image_preserve_ratio")
      as [[]|]; done.
  - unfold result, exec. rewrite change_special_formatting_run.
    destruct (ConfigManager.config (conf st) !! "z_special_formatting")
      as [z|]; [| done].
    destruct (iterate z) as [keys|]; [| done].
    by destruct (loop_writes z keys) as [ws [e|]].
  - intros H. by destruct (save_current_version_disk env st) as [[? _] | [_ ?]].
Qed.

Lemma failure_leaves_disk_witness :
  let st := boot (ConfigManager.mk
                    (list_to_map [("z_special_formatting",
                                   VDict [("bold", VBool true);
                                          ("fontcolor", VList [VBool true])])])
                    ∅) in
  result change_special_formatting st ≠ Ok tt ∧
  ConfigManager.config (conf (exec change_special_formatting st))
    !! "special_formatting.bold.enabled" = Some (VBool true) ∧
  ConfigManager.disk (conf (exec change_special_formatting st)) = ∅.
Proof.
  intros st.
  assert (Hr : result change_special_formatting st ≠ Ok tt)
    by (vm_compute; discriminate).
  split; [exact Hr |]. split; [vm_compute; reflexivity |].
  destruct (failure_leaves_disk (mkEnv None []) st) as (_ & _ & H & _).
  exact (H Hr).
Defined.

(** X9.  Each function that returns keeps the stored copy equal to the
    configuration in memory when it was so before the call: whatever it
    assigns or deletes, it saves. *)
Theorem returns_in_sync (env : Env) (st : State) :
  in_sync st →
  (result distinguish_initial_install st = Ok tt →
   in_sync (exec distinguish_initial_install st)) ∧
  (result change_resize_image_preserve_ratio st = Ok tt →
   in_sync (exec change_resize_image_preserve_ratio st)) ∧
  (result change_special_formatting st = Ok tt →
   in_sync (exec change_special_formatting st)) ∧
  (result remove_undo st = Ok tt → in_sync (exec remove_undo st)) ∧
  (result (save_current_version env) st = Ok tt →
   in_sync (exec (save_current_version env) st)).
Proof.
  unfold in_sync. intros Hs. split; [| split; [| split; [| split]]].
  - unfold result, exec. rewrite distinguish_run. by destruct (_ && _).
  - unfold result, exec. rewrite change_resize_run.
    destruct (ConfigManager.config (conf st) !! "resize_image_preserve_ratio")
      as [[]|]; done.
  - unfold result, exec. rewrite change_special_formatting_run.
    destruct (ConfigManager.config (conf st) !! "z_special_formatting")
      as [z|]; [| done].
    destruct (iterate z) as [keys|]; [| done].
    by destruct (loop_writes z keys) as [ws [e|]].
  - unfold result, exec. rewrite remove_undo_run.
    by destruct (ConfigManager.config (conf st) !! "undo").
  - intros H. by destruct (save_current_version_disk env st) as [[_ ?] | [? _]].
Qed.

Lemma returns_in_sync_witness :
  let st := boot (cfg [("undo", VBool true);
                       ("resize_image_preserve_ratio", VBool false)]) in
  in_sync st ∧
  result remove_undo st = Ok tt ∧ in_sync (exec remove_undo st) ∧
  ConfigManager.disk (conf (exec remove_undo st)) !! "undo" = None.
Proof.
  intros st.
  assert (Hs : in_sync st) by reflexivity.
  assert (Hr : result remove_undo st = Ok tt) by (vm_compute; reflexivity).
  destruct (returns_in_sync (mkEnv None []) st Hs) as (_ & _ & _ & H & _).
  split; [exact Hs |]. split; [exact Hr |]. split; [exact (H Hr) |].
  vm_compute. reflexivity.
Defined.

(** ** [change_special_formatting] at its edges *)

(** X10.  A call of [change_special_formatting] that raises has not
    deleted "z_special_formatting": the key still holds what it held, so
    nothing of the old settings is lost. *)
Theorem special_formatting_kept_on_failure (st : State) :
  result change_special_formatting st ≠ Ok tt →
  is_Some (ConfigManager.config (conf st) !! "z_special_formatting") ∧
  ConfigManager.config (conf (exec change_special_formatting st))
    !! "z_special_formatting"
  = ConfigManager.config (conf st) !! "z_special_formatting".
Proof.
  unfold result, exec. rewrite change_special_formatting_run.
  destruct (ConfigManager.config (conf st) !! "z_special_formatting")
    as [z|] eqn:Hz; [| done].
  destruct (iterate z) as [keys|]; [| cbn; rewrite Hz; by eauto].
  pose proof (loop_writes_special z keys) as Hsp.
  destruct (loop_writes z keys) as [ws [e|]]; cbn [fst snd] in *; [| done].
  intros _. split; [eauto |].
  unfold with_config. cbn [fst snd conf ConfigManager.config].
  by rewrite special_keeps_z.
Qed.

Lemma special_formatting_kept_on_failure_witness :
  let z := VDict [("bold", VBool true); ("fontcolor", VList [VBool true])] in
  let st := boot (cfg [("z_special_formatting", z)]) in
  result change_special_formatting st = Raise IndexError ∧
  ConfigManager.config (conf (exec change_special_formatting st))
    !! "z_special_formatting" = Some z.
Proof.
  intros z st.
  assert (Hr : result change_special_formatting st = Raise IndexError)
    by (vm_compute; reflexivity).
  split; [exact Hr |].
  destruct (special_formatting_kept_on_failure st) as [_ ->].
  - rewrite Hr. discriminate.
  - vm_compute. reflexivity.
Defined.

(** X11.  What is stored under "z_special_formatting" need not be a dict.
    A value that cannot be iterated ([None], a bool, a number) and a
    string that is not empty make the call raise [TypeError] with the
    state as it was; an empty dict, list or string is deleted and the
    store saved, with no other assignment. *)
Theorem special_formatting_other_values (st : State) (z : value) :
  ConfigManager.config (conf st) !! "z_special_formatting" = Some z →
  (z = VNone ∨ numeric z = true →
   change_special_formatting st = (Raise TypeError, st)) ∧
  (∀ c r, z = VStr (String c r) →
   change_special_formatting st = (Raise TypeError, st)) ∧
  (z = VDict [] ∨ z = VList [] ∨ z = VStr "" →
   change_special_formatting st =
     (Ok tt, saved (with_config (delete "z_special_formatting") st))).
Proof.
  intros Hz. rewrite change_special_formatting_run, Hz.
  split; [| split].
  - intros [-> | Hn]; [done |]. by destruct z.
  - intros c r ->. cbn. by rewrite with_config_nil.
  - by intros [-> | [-> | ->]].
Qed.

Lemma special_formatting_other_values_witness :
  let st := boot (cfg [("z_special_formatting", VStr "bold")]) in
  ConfigManager.config (conf st) !! "z_special_formatting" = Some (VStr "bold") ∧
  change_special_formatting st = (Raise TypeError, st).
Proof.
  intros st.
  assert (Hz : ConfigManager.config (conf st) !! "z_special_formatting"
               = Some (VStr "bold")) by (vm_compute; reflexivity).
  split; [exact Hz |].
  destruct (special_formatting_other_values st _ Hz) as (_ & H & _).
  exact (H _ _ eq_refl).
Defined.

(** ** Recording the version *)

(** X12.  The recording of the version returns exactly when the version
    string is a [str] whose first two dot-separated components exist and
    convert; later components are not looked at. *)
Theorem save_current_version_returns_iff (env : Env) (st : State) :
  result (save_current_version env) st = Ok tt ↔
  ∃ s sM sN zM zN,
    version_string env = VStr s ∧
    split_dot s !! 0%nat = Some sM ∧ split_dot s !! 1%nat = Some sN ∧
    parse_int sM = Some zM ∧ parse_int sN = Some zN.
Proof.
  split.
  - intros H.
    assert (H' : save_current_version env st
                 = (Ok tt, exec (save_current_version env) st)).
    { unfold result, exec in *.
      destruct (save_current_version env st) as [r s']. cbn in *. by subst r. }
    apply save_current_version_returns in H'
      as (s & sM & sN & zM & zN & ? & ? & ? & ? & ? & _).
    by exists s, sM, sN, zM, zN.
  - intros (s & sM & sN & zM & zN & Hs & H0 & H1 & PM & PN).
    by eapply save_current_version_returns_on.
Qed.

(** ** Runs of the whole module *)

Lemma exec_seq_preserves {A B} (P : State → Prop) (m : M A) (k : M B) :
  (∀ s, P s → P (exec m s)) → (∀ s, P s → P (exec k s)) →
  ∀ s, P s → P (exec (m ;; k) s).
Proof.
  intros Hm Hk s Hs. destruct (exec_seq m k s) as [-> | ->]; auto.
Qed.

Lemma save_current_version_lookup env st k :
  k ≠ "version.major" → k ≠ "version.minor" →
  ConfigManager.config (conf (exec (save_current_version env) st)) !! k
  = ConfigManager.config (conf st) !! k.
Proof.
  intros H1 H2.
  destruct (save_current_version_frame env st) as (_ & _ & E).
  apply (f_equal (λ m : gmap string value, m !! k)) in E.
  by rewrite !lookup_delete_ne in E.
Qed.

Lemma tutorial_guard_conf st : conf (exec tutorial_guard st) = conf st.
Proof. unfold exec. rewrite tutorial_guard_run. by destruct (_ && _). Qed.

Lemma own_key_false k :
  own_key k = false →
  k ≠ "version.major" ∧ k ≠ "version.minor" ∧
  k ≠ "resize_image_preserve_ratio" ∧ k ≠ "undo" ∧
  k ≠ "z_special_formatting" ∧
  String.prefix "special_formatting." k = false.
Proof.
  unfold own_key. rewrite !orb_false_iff, !String.eqb_neq. tauto.
Qed.

(** X13.  The module confines itself to its own keys: a key that is none
    of "version.major", "version.minor", "resize_image_preserve_ratio",
    "undo", "z_special_formatting" and does not begin with
    "special_formatting." holds after the run what the configuration held
    at the start, whether the run ends or raises on the way. *)
Theorem module_confined (env : Env) (c : ConfigManager.t) (k : string) :
  own_key k = false →
  ConfigManager.config (conf (exec (firstrun env) (boot c))) !! k
  = ConfigManager.config c !! k.
Proof.
  intros (H1 & H2 & H3 & H4 & H5 & H6)%own_key_false.
  set (P := λ s : State,
         ConfigManager.config (conf s) !! k = ConfigManager.config c !! k).
  assert (H0 : P (boot c)) by done.
  revert H0. generalize (boot c). unfold firstrun.
  apply (exec_seq_preserves P Version.__init__).
  { unfold P. intros s Hs. unfold Version.__init__.
    by destruct (load_frame s) as [-> _]. }
  apply (exec_seq_preserves P distinguish_initial_install).
  { unfold P. intros s Hs. by rewrite distinguish_frame. }
  apply (exec_seq_preserves P migrations).
  { unfold migrations.
    apply (exec_seq_preserves P change_resize_image_preserve_ratio).
    { unfold P. intros s Hs. by rewrite change_resize_frame. }
    apply (exec_seq_preserves P change_special_formatting).
    { unfold P. intros s Hs. by rewrite change_special_formatting_frame. }
    unfold P. intros s Hs. by rewrite remove_undo_frame. }
  apply (exec_seq_preserves P tutorial_guard).
  { unfold P. intros s Hs. by rewrite tutorial_guard_conf. }
  unfold P. intros s Hs. by rewrite save_current_version_lookup.
Qed.

Lemma module_confined_witness :
  let c := cfg [("version.major", VInt (-1)); ("version.minor", VInt (-1));
                ("resize_image_preserve_ratio", VBool true);
                ("undo", VBool true); ("ctrl_click", VBool true)] in
  own_key "ctrl_click" = false ∧
  ConfigManager.config (conf (exec (firstrun (mkEnv None [])) (boot c)))
    !! "ctrl_click" = Some (VBool true) ∧
  ConfigManager.config (conf (exec (firstrun (mkEnv None [])) (boot c)))
    !! "undo" = None.
Proof.
  intros c.
  assert (H : own_key "ctrl_click" = false) by reflexivity.
  split; [exact H |].
  rewrite (module_confined (mkEnv None []) c "ctrl_click" H).
  split; vm_compute; reflexivity.
Defined.

(** The dialogs before line 200: none, however the run goes. *)
Lemma before_tutorial_dialogs c : dialogs (exec before_tutorial (boot c)) = [].
Proof.
  set (P := λ s : State, dialogs s = []).
  assert (H0 : P (boot c)) by done.
  revert H0. generalize (boot c). unfold before_tutorial.
  apply (exec_seq_preserves P Version.__init__).
  { unfold P. intros s Hs. unfold Version.__init__.
    by destruct (load_frame s) as [_ ->]. }
  apply (exec_seq_preserves P distinguish_initial_install).
  { unfold P. intros s Hs. unfold exec. rewrite distinguish_run.
    by destruct (_ && _). }
  unfold P. intros s Hs. by destruct (migrations_globals s) as (_ & -> & _).
Qed.

Lemma firstrun_dialogs env c :
  dialogs (exec (firstrun env) (boot c)) = dialogs (exec until_tutorial (boot c)).
Proof.
  assert (E : exec (firstrun env) (boot c)
              = exec (until_tutorial ;; save_current_version env) (boot c))
    by (unfold exec; by rewrite firstrun_split).
  rewrite E.
  destruct (exec_seq until_tutorial (save_current_version env) (boot c))
    as [-> | ->]; [| done].
  by destruct (save_current_version_frame env (exec until_tutorial (boot c)))
    as (-> & _).
Qed.

Lemma until_tutorial_exec c :
  exec until_tutorial (boot c) =
    match before_tutorial (boot c) with
    | (Ok _, sc) => exec tutorial_guard sc
    | (Raise _, s) => s
    end.
Proof.
  unfold exec at 1. rewrite until_tutorial_split. fold (exec (before_tutorial ;; tutorial_guard) (boot c)).
  by rewrite exec_bind.
Qed.

(** X14.  When the run raises before line 200 (a stored version string
    does not convert, or a migration raises), no dialog is shown, also on
    a first install. *)
Theorem no_tutorial_after_failure (env : Env) (c : ConfigManager.t) :
  result before_tutorial (boot c) ≠ Ok tt →
  dialogs (exec (firstrun env) (boot c)) = [].
Proof.
  intros H. rewrite firstrun_dialogs, until_tutorial_exec.
  pose proof (before_tutorial_dialogs c) as Hd. unfold result, exec in *.
  destruct (before_tutorial (boot c)) as [[[]|e] s]; [done | exact Hd].
Qed.

Lemma no_tutorial_after_failure_witness :
  let c := cfg [("version.major", VInt (-1)); ("version.minor", VInt (-1));
                ("resize_image_preserve_ratio", VInt 1);
                ("z_special_formatting", VDict [("bold", VList [VBool true])])] in
  result before_tutorial (boot c) ≠ Ok tt ∧
  dialogs (exec (firstrun (mkEnv None [])) (boot c)) = [].
Proof.
  intros c.
  assert (H : result before_tutorial (boot c) ≠ Ok tt)
    by (vm_compute; discriminate).
  split; [exact H |]. exact (no_tutorial_after_failure (mkEnv None []) c H).
Defined.

Lemma until_distinguish_version c sb :
  until_distinguish (boot c) = (Ok tt, sb) →
  truthy (ConfigManager.get c "undo" VNone) = true →
  eq_int (major (version sb)) (-1) && eq_int (minor (version sb)) (-1) = false.
Proof.
  unfold until_distinguish. intros H Hu.
  apply bind_inv in H as ([] & s1 & Hinit & H).
  pose proof (load_frame (boot c)) as [Hc _].
  unfold exec, Version.__init__ in *. rewrite Hinit in Hc. cbn in Hc.
  rewrite distinguish_run, Hc, Hu, andb_true_r in H.
  destruct (_ && _) eqn:E; injection H as <-; done.
Qed.

(** X15.  A configuration in which "undo" is stored with a truthy value
    never gets the tutorial: either the stored version is not -1.-1, or
    [distinguish_initial_install] has made it 0.0 before the guard of
    line 200 looks at it. *)
Theorem no_tutorial_with_undo (env : Env) (c : ConfigManager.t) :
  truthy (ConfigManager.get c "undo" VNone) = true →
  dialogs (exec (firstrun env) (boot c)) = [].
Proof.
  intros Hu. rewrite firstrun_dialogs, until_tutorial_exec.
  pose proof (before_tutorial_dialogs c) as Hd. unfold exec in Hd.
  destruct (before_tutorial (boot c)) as [[[]|e] sc] eqn:Hb; [| exact Hd].
  cbn in Hd. rewrite before_tutorial_split in Hb.
  apply bind_inv in Hb as ([] & sb & Hsb & Hm).
  pose proof (until_distinguish_version c sb Hsb Hu) as Hv.
  destruct (migrations_globals sb) as (Hver & _).
  unfold exec in Hver |- *. rewrite Hm in Hver. cbn in Hver.
  rewrite tutorial_guard_run, Hver, Hv. exact Hd.
Qed.

Lemma no_tutorial_with_undo_witness :
  let c := cfg [("version.major", VInt (-1)); ("version.minor", VInt (-1));
                ("undo", VBool true);
                ("resize_image_preserve_ratio", VInt 1)] in
  truthy (ConfigManager.get c "undo" VNone) = true ∧
  result (firstrun (mkEnv None [])) (boot c) = Ok tt ∧
  dialogs (exec (firstrun (mkEnv None [])) (boot c)) = [].
Proof.
  intros c.
  assert (Hu : truthy (ConfigManager.get c "undo" VNone) = true)
    by (vm_compute; reflexivity).
  split; [exact Hu |]. split; [vm_compute; reflexivity |].
  exact (no_tutorial_with_undo (mkEnv None []) c Hu).
Defined.

(** A run that returns, stage by stage. *)
Lemma firstrun_stages env s0 st' :
  firstrun env s0 = (Ok tt, st') →
  ∃ s1 s2 s3 s4 s5 s6,
    Version.__init__ s0 = (Ok tt, s1) ∧
    distinguish_initial_install s1 = (Ok tt, s2) ∧
    change_resize_image_preserve_ratio s2 = (Ok tt, s3) ∧
    change_special_formatting s3 = (Ok tt, s4) ∧
    remove_undo s4 = (Ok tt, s5) ∧
    tutorial_guard s5 = (Ok tt, s6) ∧
    save_current_version env s6 = (Ok tt, st').
Proof.
  unfold firstrun, migrations. intros H.
  apply bind_inv in H as ([] & s1 & H1 & H).
  apply bind_inv in H as ([] & s2 & H2 & H).
  apply bind_inv in H as ([] & s5 & Hm & H).
  apply bind_inv in Hm as ([] & s3 & H3 & Hm).
  apply bind_inv in Hm as ([] & s4 & H4 & H5).
  apply bind_inv in H as ([] & s6 & H6 & H7).
  by exists s1, s2, s3, s4, s5, s6.
Qed.

Lemma firstrun_compose env s0 s1 s2 s3 s4 s5 s6 :
  Version.__init__ s0 = (Ok tt, s1) →
  distinguish_initial_install s1 = (Ok tt, s2) →
  change_resize_image_preserve_ratio s2 = (Ok tt, s3) →
  change_special_formatting s3 = (Ok tt, s4) →
  remove_undo s4 = (Ok tt, s5) →
  tutorial_guard s5 = (Ok tt, s6) →
  firstrun env s0 = save_current_version env s6.
Proof.
  intros H1 H2 H3 H4 H5 H6. unfold firstrun, migrations.
  rewrite (bind_Ok _ _ _ _ _ H1), (bind_Ok _ _ _ _ _ H2).
  assert (Hm : (change_resize_image_preserve_ratio ;;
                change_special_formatting ;; remove_undo) s2 = (Ok tt, s5)).
  { by rewrite (bind_Ok _ _ _ _ _ H3), (bind_Ok _ _ _ _ _ H4). }
  by rewrite (bind_Ok _ _ _ _ _ Hm), (bind_Ok _ _ _ _ _ H6).
Qed.

Lemma pair_exec {A} (m : M A) st a st' : m st = (Ok a, st') → exec m st = st'.
Proof. unfold exec. by intros ->. Qed.

(** What the migrations leave in a run that returns. *)
Lemma migrated_state s2 s3 s4 s5 :
  change_resize_image_preserve_ratio s2 = (Ok tt, s3) →
  change_special_formatting s3 = (Ok tt, s4) →
  remove_undo s4 = (Ok tt, s5) →
  ConfigManager.config (conf s5) !! "undo" = None ∧
  ConfigManager.config (conf s5) !! "z_special_formatting" = None ∧
  ∃ v, ConfigManager.config (conf s5) !! "resize_image_preserve_ratio" = Some v ∧
       is_bool v = false.
Proof.
  intros H3 H4 H5.
  assert (Hr3 : ∃ v, ConfigManager.config (conf s3)
                       !! "resize_image_preserve_ratio" = Some v ∧
                     is_bool v = false).
  { rewrite change_resize_run in H3.
    destruct (ConfigManager.config (conf s2) !! "resize_image_preserve_ratio")
      as [v|] eqn:Hv; [| done].
    destruct v; injection H3 as <-; try (rewrite Hv; by eauto).
    cbn. rewrite lookup_insert_eq. by eauto. }
  assert (Hz4 : ConfigManager.config (conf s4) !! "z_special_formatting" = None).
  { rewrite change_special_formatting_run in H4.
    destruct (ConfigManager.config (conf s3) !! "z_special_formatting")
      as [z|] eqn:Hz; [| by injection H4 as <-].
    destruct (iterate z) as [keys|]; [| done].
    destruct (loop_writes z keys) as [ws [e|]]; [done |].
    injection H4 as <-. cbn. by rewrite lookup_delete_eq. }
  assert (Hu5 : ConfigManager.config (conf s5) !! "undo" = None).
  { rewrite remove_undo_run in H5.
    destruct (ConfigManager.config (conf s4) !! "undo") eqn:Hu;
      injection H5 as <-; [| done].
    cbn. by rewrite lookup_delete_eq. }
  split; [exact Hu5 |].
  rewrite <- (pair_exec _ _ _ _ H5).
  rewrite !remove_undo_frame by done.
  split; [exact Hz4 |].
  rewrite <- (pair_exec _ _ _ _ H4).
  by rewrite change_special_formatting_frame.
Qed.

Lemma module_postcondition_aux env c st' :
  firstrun env (boot c) = (Ok tt, st') →
  ConfigManager.config (conf st') !! "undo" = None ∧
  ConfigManager.config (conf st') !! "z_special_formatting" = None ∧
  ∃ v, ConfigManager.config (conf st') !! "resize_image_preserve_ratio" = Some v ∧
       is_bool v = false.
Proof.
  intros H.
  apply firstrun_stages in H
    as (s1 & s2 & s3 & s4 & s5 & s6 & _ & _ & H3 & H4 & H5 & H6 & H7).
  destruct (migrated_state _ _ _ _ H3 H4 H5) as (Hu & Hz & v & Hv & Hb).
  rewrite <- (pair_exec _ _ _ _ H7).
  rewrite !save_current_version_lookup by done.
  rewrite <- (pair_exec _ _ _ _ H6), tutorial_guard_conf.
  eauto.
Qed.

(** X16.  When the module has run to its end, the configuration holds
    neither "undo" nor "z_special_formatting", and
    "resize_image_preserve_ratio" is present with a value that is not a
    boolean. *)
Theorem module_postcondition (env : Env) (c : ConfigManager.t) (st' : State) :
  firstrun env (boot c) = (Ok tt, st') →
  ConfigManager.config (conf st') !! "undo" = None ∧
  ConfigManager.config (conf st') !! "z_special_formatting" = None ∧
  ∃ v, ConfigManager.config (conf st') !! "resize_image_preserve_ratio" = Some v ∧
       is_bool v = false.
Proof. apply module_postcondition_aux. Qed.

Lemma module_postcondition_witness :
  let c := cfg [("version.major", VInt 0); ("version.minor", VInt 0);
                ("undo", VBool false);
                ("resize_image_preserve_ratio", VBool true);
                ("z_special_formatting", VDict [("bold", VBool true)])] in
  let env := mkEnv None [] in
  firstrun env (boot c) = (Ok tt, exec (firstrun env) (boot c)) ∧
  ConfigManager.config (conf (exec (firstrun env) (boot c))) !! "undo" = None ∧
  ConfigManager.config (conf (exec (firstrun env) (boot c)))
    !! "resize_image_preserve_ratio" = Some (VInt 1).
Proof.
  intros c env.
  assert (H : firstrun env (boot c) = (Ok tt, exec (firstrun env) (boot c)))
    by (vm_compute; reflexivity).
  split; [exact H |].
  destruct (module_postcondition env c _ H) as (Hu & _).
  split; [exact Hu | vm_compute; reflexivity].
Defined.

Lemma change_resize_not_bool st v :
  ConfigManager.config (conf st) !! "resize_image_preserve_ratio" = Some v →
  is_bool v = false →
  change_resize_image_preserve_ratio st = (Ok tt, st).
Proof. intros Hv Hb. rewrite change_resize_run, Hv. by destruct v. Qed.

(** X17.  A run that has reached its end leaves a configuration on which
    the module does nothing more: the next start returns as well, leaves
    the configuration (in memory and stored) exactly as it found it, and
    shows no dialog, unless the add-on version recorded is itself
    -1.-1. *)
Theorem second_run_changes_nothing (env : Env) (c : ConfigManager.t)
    (st' : State) :
  firstrun env (boot c) = (Ok tt, st') →
  ∃ st2,
    firstrun env (boot (conf st')) = (Ok tt, st2) ∧
    conf st2 = conf st' ∧
    (dialogs st2 = [] ∨
     (ConfigManager.config (conf st') !! "version.major" = Some (VInt (-1)) ∧
      ConfigManager.config (conf st') !! "version.minor" = Some (VInt (-1)))).
Proof.
  intros H. destruct (module_postcondition_aux env c st' H) as (Hu & Hz & v & Hv & Hb).
  apply firstrun_stages in H as (s1 & s2 & s3 & s4 & s5 & s6 & _ & _ & _ & _ & _ & _ & H7).
  pose proof H7 as H7'.
  apply save_current_version_returns in H7'
    as (s & sM & sN & zM & zN & Hs & H0 & H1 & PM & PN & Est).
  cbv zeta in Est.
  set (c2 := <["version.minor" := VInt zN]>
               (<["version.major" := VInt zM]> (ConfigManager.config (conf s6)))) in *.
  assert (Hconf : conf st' = ConfigManager.mk c2 c2) by (by rewrite Est).
  assert (HM : c2 !! "version.major" = Some (VInt zM))
    by (unfold c2; by rewrite lookup_insert_ne, lookup_insert_eq).
  assert (HN : c2 !! "version.minor" = Some (VInt zN))
    by (unfold c2; by rewrite lookup_insert_eq).
  rewrite Hconf in Hu, Hz, Hv |- *. cbn in Hu, Hz, Hv.
  set (t1 := mkState (ConfigManager.mk c2 c2) (mkVersion (VInt zM) (VInt zN)) []).
  set (tg := if (zM =? -1) && (zN =? -1)
             then mkState (conf t1) (version t1) (dialogs t1 ++ [tutorial_dialog])
             else t1).
  assert (Hg : conf tg = ConfigManager.mk c2 c2 ∧ version tg = version t1)
    by (unfold tg; by destruct (_ && _)).
  destruct Hg as [Hgc Hgv].
  assert (Hrun : firstrun env (boot (ConfigManager.mk c2 c2))
                 = save_current_version env tg).
  { apply (firstrun_compose env _ t1 t1 t1 t1 t1 tg).
    - unfold Version.__init__. by rewrite (load_not_str _ (VInt zM) (VInt zN)).
    - rewrite distinguish_run. unfold ConfigManager.get. cbn.
      rewrite Hu. cbn. by rewrite andb_false_r.
    - by apply (change_resize_not_bool t1 v).
    - rewrite change_special_formatting_run. cbn. by rewrite Hz.
    - rewrite remove_undo_run. cbn. by rewrite Hu.
    - by rewrite tutorial_guard_run. }
  destruct (save_current_version env tg) as [r st2] eqn:Hsave.
  assert (Hr : r = Ok tt).
  { pose proof (save_current_version_returns_on env tg s sM sN zM zN
                  Hs H0 H1 PM PN) as Hres.
    unfold result in Hres. by rewrite Hsave in Hres. }
  subst r. exists st2. split; [exact Hrun |].
  apply save_current_version_returns in Hsave
    as (s' & sM' & sN' & zM' & zN' & Hs' & H0' & H1' & PM' & PN' & ->).
  rewrite Hs in Hs'. injection Hs' as <-.
  rewrite H0 in H0'. injection H0' as <-.
  rewrite H1 in H1'. injection H1' as <-.
  rewrite PM in PM'. injection PM' as <-.
  rewrite PN in PN'. injection PN' as <-.
  cbv zeta. rewrite Hgc. cbn [ConfigManager.config conf dialogs].
  rewrite (insert_id c2 "version.major" (VInt zM) HM).
  rewrite (insert_id c2 "version.minor" (VInt zN) HN).
  split; [done |].
  unfold tg. destruct (Z.eqb_spec zM (-1)) as [-> |]; [| by left].
  destruct (Z.eqb_spec zN (-1)) as [-> |]; [| by left].
  right. by rewrite HM, HN.
Qed.

Lemma second_run_changes_nothing_witness :
  let c := cfg [("version.major", VInt (-1)); ("version.minor", VInt (-1));
                ("resize_image_preserve_ratio", VBool true);
                ("z_special_formatting", VDict [("bold", VBool true)])] in
  let env := mkEnv (Some "6.24") [] in
  let st' := exec (firstrun env) (boot c) in
  firstrun env (boot c) = (Ok tt, st') ∧
  dialogs st' = [tutorial_dialog] ∧
  ∃ st2, firstrun env (boot (conf st')) = (Ok tt, st2) ∧
         conf st2 = conf st' ∧ dialogs st2 = [].
Proof.
  intros c env st'.
  assert (H : firstrun env (boot c) = (Ok tt, st')) by (vm_compute; reflexivity).
  split; [exact H |]. split; [vm_compute; reflexivity |].
  destruct (second_run_changes_nothing env c st' H) as (st2 & H2 & Hc & Hd).
  exists st2. split; [exact H2 |]. split; [exact Hc |].
  destruct Hd as [Hd | [HM _]]; [exact Hd |].
  vm_compute in HM. discriminate.
Defined.

(** ** Reading the recorded version back *)

Lemma ints_of_cons_inv x l zs :
  ints_of (x :: l) = Ok zs →
  ∃ z zs', parse_int x = Some z ∧ ints_of l = Ok zs' ∧ zs = z :: zs'.
Proof.
  cbn [ints_of]. unfold int_of_str.
  destruct (parse_int x) as [z|]; [| done].
  destruct (ints_of l) as [zs'|]; [| done].
  intros [= <-]. eauto.
Qed.

(** X18.  The version the module records reads back as the add-on
    version: when every component of the version string converts, a
    [Version] built from the configuration a finished run has left
    compares equal to that string. *)
Theorem recorded_version_reads_back (env : Env) (c : ConfigManager.t)
    (st' : State) (s : string) (l : list Z) :
  firstrun env (boot c) = (Ok tt, st') →
  version_string env = VStr s →
  Version.ver s = Ok l →
  ∃ v, new_Version (conf st') = Ok v ∧ Version.__eq__ v s = Ok true ∧
       Version.__ge__ v s = Ok true ∧ Version.__le__ v s = Ok true.
Proof.
  intros H Hs Hl.
  apply firstrun_stages in H as (s1 & s2 & s3 & s4 & s5 & s6 & _ & _ & _ & _ & _ & _ & H7).
  apply save_current_version_returns in H7
    as (s' & sM & sN & zM & zN & Hs' & H0 & H1 & PM & PN & ->).
  rewrite Hs in Hs'. injection Hs' as <-.
  unfold Version.ver in Hl.
  destruct (split_dot s) as [| x0 [| x1 xs]] eqn:Hsp; [done | done |].
  injection H0 as ->. injection H1 as ->.
  apply ints_of_cons_inv in Hl as (z0 & zs0 & P0 & Hl & ->).
  apply ints_of_cons_inv in Hl as (z1 & zs1 & P1 & Hl & ->).
  rewrite PM in P0. injection P0 as <-.
  rewrite PN in P1. injection P1 as <-.
  assert (Hver : Version.ver s = Ok (zM :: zN :: zs1)).
  { unfold Version.ver. rewrite Hsp. cbn [ints_of]. unfold int_of_str.
    by rewrite PM, PN, Hl. }
  exists (mkVersion (VInt zM) (VInt zN)). cbv zeta.
  assert (He : Version.__eq__ (mkVersion (VInt zM) (VInt zN)) s = Ok true).
  { rewrite (eq_ints _ _ _ _ _ _ Hver). by rewrite !Z.eqb_refl. }
  split; [| split; [exact He | split]].
  - unfold new_Version, Version.__init__.
    rewrite (load_not_str _ (VInt zM) (VInt zN)); try done; cbn.
    + by rewrite lookup_insert_ne, lookup_insert_eq.
    + by rewrite lookup_insert_eq.
  - unfold Version.__ge__. by rewrite He.
  - unfold Version.__le__. by rewrite He.
Qed.

Lemma recorded_version_reads_back_witness :
  let c := cfg [("version.major", VInt 6); ("version.minor", VInt 3);
                ("resize_image_preserve_ratio", VInt 1)] in
  let env := mkEnv (Some "6.24.1") [] in
  firstrun env (boot c) = (Ok tt, exec (firstrun env) (boot c)) ∧
  version_string env = VStr "6.24.1" ∧
  Version.ver "6.24.1" = Ok [6; 24; 1] ∧
  ∃ v, new_Version (conf (exec (firstrun env) (boot c))) = Ok v ∧
       Version.__eq__ v "6.24.1" = Ok true.
Proof.
  intros c env.
  assert (H : firstrun env (boot c) = (Ok tt, exec (firstrun env) (boot c)))
    by (vm_compute; reflexivity).
  split; [exact H |]. split; [reflexivity |]. split; [reflexivity |].
  destruct (recorded_version_reads_back env c _ "6.24.1" [6; 24; 1]
              H eq_refl eq_refl) as (v & Hv & He & _).
  by exists v.
Defined.

(** ** When the module returns *)

Lemma change_special_formatting_returns st :
  (ConfigManager.config (conf st) !! "z_special_formatting" = None ∨
   ∃ d, ConfigManager.config (conf st) !! "z_special_formatting" = Some (VDict d) ∧
        ∀ k l, dict_lookup d k = Some (VList l) → (2 ≤ length l)%nat) →
  result change_special_formatting st = Ok tt.
Proof.
  unfold result. rewrite change_special_formatting_run.
  intros [-> | (d & -> & Hlen)]; [done |]. cbn [iterate].
  rewrite loop_writes_completes; [done |].
  intros k Hk. destruct (elem_dict_lookup d k Hk) as [opts Ho].
  exists opts. destruct (is_list opts) eqn:Hlist.
  - destruct opts; try done.
    destruct (options_of_list l) as (enabled & arg & ? & ?); [by eapply Hlen |].
    by exists enabled, arg.
  - destruct (options_of_other opts Hlist). by exists opts, VNone.
Qed.

(** X19.  The module runs to its end on every configuration in which both
    version keys are stored and their strings convert, the resize setting
    is present and "z_special_formatting" is absent or a dict whose list
    values have two elements, provided the add-on version string has two
    leading components that convert. *)
Theorem module_returns (env : Env) (c : ConfigManager.t)
    (vM vN r : value) (s sM sN : string) (zM zN : Z) :
  ConfigManager.config c !! "version.major" = Some vM →
  ConfigManager.config c !! "version.minor" = Some vN →
  (∀ x, vM = VStr x → is_Some (parse_int x)) →
  (∀ x, vN = VStr x → is_Some (parse_int x)) →
  ConfigManager.config c !! "resize_image_preserve_ratio" = Some r →
  (ConfigManager.config c !! "z_special_formatting" = None ∨
   ∃ d, ConfigManager.config c !! "z_special_formatting" = Some (VDict d) ∧
        ∀ k l, dict_lookup d k = Some (VList l) → (2 ≤ length l)%nat) →
  version_string env = VStr s →
  split_dot s !! 0%nat = Some sM → split_dot s !! 1%nat = Some sN →
  parse_int sM = Some zM → parse_int sN = Some zN →
  result (firstrun env) (boot c) = Ok tt.
Proof.
  intros HM HN SM SN Hr Hz Hs H0 H1 PM PN. unfold firstrun.
  assert (Hload : result Version.__init__ (boot c) = Ok tt).
  { unfold result, Version.__init__. rewrite (load_run (boot c) vM vN HM HN).
    cbv zeta.
    destruct vM as [| | | | x | |];
      try (destruct (SM x eq_refl) as [? ->]);
      destruct vN as [| | | | y | |];
      try (destruct (SN y eq_refl) as [? ->]); done. }
  apply result_seq_Ok; [exact Hload |].
  set (s1 := exec Version.__init__ (boot c)).
  assert (Hc1 : conf s1 = c)
    by (unfold s1, Version.__init__; by destruct (load_frame (boot c)) as [-> _]).
  apply result_seq_Ok; [apply distinguish_returns |].
  set (s2 := exec distinguish_initial_install s1).
  assert (Hk : ∀ k, k ≠ "version.major" → k ≠ "version.minor" →
               ConfigManager.config (conf s2) !! k = ConfigManager.config c !! k).
  { intros k ? ?. unfold s2. rewrite distinguish_frame by done. by rewrite Hc1. }
  apply result_seq_Ok.
  - unfold migrations.
    apply result_seq_Ok.
    { eapply change_resize_returns. by rewrite Hk. }
    apply result_seq_Ok; [| apply remove_undo_returns].
    apply change_special_formatting_returns.
    rewrite change_resize_frame, Hk by done. exact Hz.
  - apply result_seq_Ok; [apply tutorial_guard_returns |].
    by eapply save_current_version_returns_on.
Qed.

Lemma module_returns_witness :
  let c := cfg [("version.major", VStr "6"); ("version.minor", VStr "21");
                ("resize_image_preserve_ratio", VBool true);
                ("z_special_formatting",
                 VDict [("fontcolor", VList [VBool true; VStr "#f00"])])] in
  let env := mkEnv None [("human_version", VStr "6.24")] in
  result (firstrun env) (boot c) = Ok tt.
Proof.
  intros c env.
  apply (module_returns env c (VStr "6") (VStr "21") (VBool true)
           "6.24" "6" "24" 6 24).
  - vm_compute; reflexivity.
  - vm_compute; reflexivity.
  - intros x [= <-]. exists 6. vm_compute; reflexivity.
  - intros x [= <-]. exists 21. vm_compute; reflexivity.
  - vm_compute; reflexivity.
  - right. eexists. split; [vm_compute; reflexivity |].
    intros k l. cbn [dict_lookup].
    destruct (String.eqb _ k); [intros [= <-]; cbn; lia | done].
  - vm_compute; reflexivity.
  - vm_compute; reflexivity.
  - vm_compute; reflexivity.
  - vm_compute; reflexivity.
  - vm_compute; reflexivity.
Defined.
